(** * EVC hybrid chat: the state engine, its scorers and the turn loop

    A shallow embedding of [utils.py], [evc_engine.py], [reflection.py],
    the chat handler of [web.py] and [ConversationMemory] of
    [enhanced_dual_ai.py], followed by the properties of the engine.

    Python values are modelled as the interpreter has them:
    - [float] is IEEE 754 binary64, through the executable specification
      [spec_float] of the core library (53 bits of precision, round to
      nearest even);
    - [str] is a sequence of Unicode code points;
    - [int] is [Z];
    - [dict] with string keys is a [gmap], [set] a [gset], [deque] a list
      with the eviction written out;
    - exceptions are a [result] type with the names of the Python classes. *)

From Corelib Require Import SpecFloat.
From Stdlib Require Import ZArith List String Ascii Bool Lia DecimalString.
From stdpp Require Import base option list gmap.
Import ListNotations.

Local Open Scope Z_scope.

(** ** The Python runtime *)

Module Py.

(** *** Exceptions *)

Inductive exn :=
| AttributeError
| TypeError
| ValueError
| ZeroDivisionError.

Inductive result (A : Type) :=
| Ok (a : A)
| Raise (e : exn).
Arguments Ok {A} a.
Arguments Raise {A} e.

Definition bind {A B} (r : result A) (k : A -> result B) : result B :=
  match r with
  | Ok a => k a
  | Raise e => Raise e
  end.

(** *** float: binary64 *)

Definition prec : Z := 53.
Definition emax : Z := 1024.

Abbreviation float := spec_float.

Definition fadd : float -> float -> float := SFadd prec emax.
Definition fsub : float -> float -> float := SFsub prec emax.
Definition fmul : float -> float -> float := SFmul prec emax.
Definition fdiv : float -> float -> float := SFdiv prec emax.
Definition fneg : float -> float := SFopp.
Definition fabs : float -> float := SFabs.

(** [x < y] and [x <= y]; both are [False] as soon as one side is NaN. *)
Definition flt : float -> float -> bool := SFltb.
Definition fle : float -> float -> bool := SFleb.

(** [float(z)], also the implicit conversion of an [int] operand in mixed
    arithmetic. *)
Definition float_of_int (z : Z) : float := binary_normalize prec emax z 0 false.

(** The decimal literal [n/d], with [d] a power of ten and both below
    [2^53]: the binary64 nearest to the quotient, which is what the
    correctly rounded division of the two exact operands yields. *)
Definition lit (n d : Z) : float := fdiv (float_of_int n) (float_of_int d).

Definition is_zero (x : float) : bool :=
  match x with
  | S754_zero _ => true
  | _ => false
  end.

Definition is_nan (x : float) : bool :=
  match x with
  | S754_nan => true
  | _ => false
  end.

(** [x / y] on floats raises on a zero divisor. *)
Definition truediv (x y : float) : result float :=
  if is_zero y then Raise ZeroDivisionError else Ok (fdiv x y).

(** [a / b] on ints. The quotient is correctly rounded; it is computed
    here from the converted operands, which is exact for operands
    below [2^53]. *)
Definition int_truediv (a b : Z) : result float :=
  if b =? 0 then Raise ZeroDivisionError
  else Ok (fdiv (float_of_int a) (float_of_int b)).

(** The builtins [min(a, b)] and [max(a, b)]: the first argument is kept
    unless the second is strictly smaller (resp. larger). *)
Definition min (a b : float) : float := if flt b a then b else a.
Definition max (a b : float) : float := if flt a b then b else a.

(** [x == y] on floats: the two zeros are equal, NaN equals nothing. *)
Definition feq : float -> float -> bool := SFeqb.

Arguments fadd : simpl never.
Arguments fsub : simpl never.
Arguments fmul : simpl never.
Arguments fdiv : simpl never.
Arguments fneg : simpl never.
Arguments fabs : simpl never.
Arguments flt : simpl never.
Arguments fle : simpl never.
Arguments min : simpl never.
Arguments max : simpl never.
Arguments truediv : simpl never.
Arguments int_truediv : simpl never.
Arguments float_of_int : simpl never.

(** Decimal literals of the source, read the way the interpreter reads
    them: [-x] is the negation of the literal [x]. *)
Definition of_decimal (neg : bool) (digits : Decimal.uint) (exp10 : Z) : float :=
  let m := Z.of_uint digits in
  let x := if 0 <=? exp10 then lit (m * 10 ^ exp10) 1 else lit m (10 ^ (- exp10)) in
  if neg then fneg x else x.

Definition of_number (n : Number.number) : option float :=
  let parts (i : Decimal.int) (f : Decimal.uint) (e : Z) :=
    let e := e - Z.of_nat (Decimal.nb_digits f) in
    match i with
    | Decimal.Pos u => of_decimal false (Decimal.app u f) e
    | Decimal.Neg u => of_decimal true (Decimal.app u f) e
    end in
  match n with
  | Number.Decimal (Decimal.Decimal i f) => Some (parts i f 0)
  | Number.Decimal (Decimal.DecimalExp i f e) => Some (parts i f (Z.of_int e))
  | Number.Hexadecimal _ => None
  end.

Definition to_number (x : float) : option Number.number := None.

Declare Scope float_scope.
Delimit Scope float_scope with f.
Number Notation spec_float of_number to_number : float_scope.
Infix "+" := fadd : float_scope.
Infix "-" := fsub : float_scope.
Infix "*" := fmul : float_scope.
Infix "/" := fdiv : float_scope.
Notation "- x" := (fneg x) : float_scope.
Infix "<" := flt : float_scope.
Infix "<=" := fle : float_scope.
Notation "x > y" := (flt y x) : float_scope.
Notation "x >= y" := (fle y x) : float_scope.

(** *** str: code points *)

Definition pystr := list N.

(** Decoding of the UTF-8 bytes of a source literal. *)
Fixpoint utf8_decode (bs : list N) : pystr :=
  let cont b := N.land b 63 in
  match bs with
  | [] => []
  | b0 :: r0 =>
      if (b0 <? 128)%N then b0 :: utf8_decode r0
      else match r0 with
      | [] => []
      | b1 :: r1 =>
          if (b0 <? 224)%N then
            (N.shiftl (N.land b0 31) 6 + cont b1)%N :: utf8_decode r1
          else match r1 with
          | [] => []
          | b2 :: r2 =>
              if (b0 <? 240)%N then
                (N.shiftl (N.land b0 15) 12 + N.shiftl (cont b1) 6 + cont b2)%N
                  :: utf8_decode r2
              else match r2 with
              | [] => []
              | b3 :: r3 =>
                  (N.shiftl (N.land b0 7) 18 + N.shiftl (cont b1) 12
                   + N.shiftl (cont b2) 6 + cont b3)%N :: utf8_decode r3
              end
          end
      end
  end.

Definition utf8 (s : string) : pystr :=
  utf8_decode (List.map N_of_ascii (list_ascii_of_string s)).

(** [s.startswith(p)] *)
Fixpoint startswith (s p : pystr) : bool :=
  match p, s with
  | [], _ => true
  | _ :: _, [] => false
  | a :: p', b :: s' => (a =? b)%N && startswith s' p'
  end.

(** [w in t] on strings: substring containment. *)
Fixpoint contains (w t : pystr) : bool :=
  startswith t w ||
  match t with
  | [] => false
  | _ :: t' => contains w t'
  end.

(** [len(s)] *)
Definition len {A} (l : list A) : Z := Z.of_nat (length l).

(** [s.count(sub)]: occurrences that do not overlap, left to right;
    [skip] is what is left to step over of the last occurrence. *)
Fixpoint count_from (sub s : pystr) (skip : nat) : Z :=
  match s with
  | [] => 0
  | _ :: r =>
      match skip with
      | S k => count_from sub r k
      | O => if startswith s sub
             then 1 + count_from sub r (length sub - 1)
             else count_from sub r 0
      end
  end.

Definition count (s sub : pystr) : Z :=
  match sub with
  | [] => len s + 1
  | _ => count_from sub s 0
  end.

(** [c.isspace()] *)
Definition isspace (c : N) : bool :=
  ((9 <=? c) && (c <=? 13) || (28 <=? c) && (c <=? 32)
   || (c =? 133) || (c =? 160) || (c =? 5760)
   || (8192 <=? c) && (c <=? 8202)
   || (c =? 8232) || (c =? 8233) || (c =? 8239) || (c =? 8287)
   || (c =? 12288))%N.

(** [s.split()]: the maximal runs of characters that are not whitespace;
    [cur] is the run being read, last character first. *)
Fixpoint split_from (s cur : pystr) : list pystr :=
  match s with
  | [] => match cur with [] => [] | _ => [rev cur] end
  | c :: r =>
      if isspace c
      then match cur with [] => split_from r [] | _ => rev cur :: split_from r [] end
      else split_from r (c :: cur)
  end.

Definition split (s : pystr) : list pystr := split_from s [].

(** [s.strip()] is the empty string iff every character is whitespace;
    this is its truth value. *)
Definition strip_truthy (s : pystr) : bool := negb (forallb isspace s).

(** [str.lower] is a builtin over the whole of Unicode; the development
    is parametric in it. *)
Class StrLower := lower : pystr -> pystr.

(** The lowering of the Basic Latin block, every other code point kept:
    it agrees with the builtin on ASCII text. *)
Definition ascii_lower : StrLower :=
  List.map (fun c => if ((65 <=? c) && (c <=? 90))%N then (c + 32)%N else c).

#[global] Instance float_eq_dec : EqDecision float.
Proof. solve_decision. Defined.

(** [l[i:]] and [l[:k]]: a negative index counts from the end, and an
    index beyond an end stops there. *)
Definition slice_from {A} (l : list A) (i : Z) : list A :=
  drop (Z.to_nat (if i <? 0 then Z.max 0 (len l + i) else i)) l.

Definition slice_to {A} (l : list A) (k : Z) : list A :=
  take (Z.to_nat (if k <? 0 then Z.max 0 (len l + k) else k)) l.

(** [sep.join(l)] *)
Definition join (sep : pystr) (l : list pystr) : pystr :=
  match l with
  | [] => []
  | x :: r => x ++ flat_map (fun y => sep ++ y) r
  end.

(** [str(n)], also an [int] in an f-string. *)
Definition str_of_int (n : Z) : pystr :=
  utf8 (NilZero.string_of_int (Z.to_int n)).

(** [s.strip()] and [s.endswith(p)] *)
Fixpoint lstrip (s : pystr) : pystr :=
  match s with
  | c :: s' => if isspace c then lstrip s' else s
  | [] => []
  end.

Definition strip (s : pystr) : pystr := rev (lstrip (rev (lstrip s))).

Definition endswith (s p : pystr) : bool := startswith (rev s) (rev p).

(** *** Dynamically typed arguments *)

#[warnings="-register-all"]
Inductive object :=
| PyNone
| PyBool (b : bool)
| PyInt (z : Z)
| PyFloat (x : float)
| PyStr (s : pystr)
| PyBytes (b : list N)
| PyList (l : list object).

End Py.

#[global] Instance result_ret : MRet Py.result := @Py.Ok.
#[global] Instance result_bind : MBind Py.result := fun A B k r => Py.bind r k.

Import Py.
Local Open Scope string_scope.
Local Open Scope list_scope.
Local Open Scope Z_scope.

(** ** utils.py: the lexicon scorer and [clamp] *)

Module utils.

Definition POS_WORDS : gset pystr := list_to_set (utf8 <$> [
  "ดีมาก"; "เยี่ยม"; "สุดยอด"; "ขอบคุณ"; "สวย"; "เก่ง"; "ถูกต้อง"; "ชัดเจน"; "แม่นยำ";
  "รัก"; "แนะนำ"; "ยินดี"; "ยอดเยี่ยม"; "เวิร์ก"; "เวิร์ค"; "เหมาะสม"; "ก้าวหน้า"; "สำเร็จ"]).

Definition NEG_WORDS : gset pystr := list_to_set (utf8 <$> [
  "แย่"; "ไม่ดี"; "ผิด"; "พัง"; "โกรธ"; "กลัว"; "กังวล"; "ห่วย"; "งง"; "สับสน"; "ล้มเหลว";
  "ยาก"; "แย่มาก"; "ช้า"; "น่ากลัว"; "แย่สุดๆ"]).

Definition VOL_WORDS : gset pystr := list_to_set (utf8 <$> [
  "เร่งด่วน"; "ด่วน"; "วิกฤต"; "ผันผวน"; "แรง"; "แรงมาก"; "สวิง"; "ผันผวนสูง"]).

(** [sum(1 for w in words if w in t)] *)
Definition matches (words : gset pystr) (t : pystr) : Z :=
  len (List.filter (fun w => contains w t) (elements words)).

Section scorer.
Context `{StrLower}.

Definition simple_sentiment (text : pystr) : result float :=
  let t := lower text in
  let pos := matches POS_WORDS t in
  let neg := matches NEG_WORDS t in
  if (pos =? 0) && (neg =? 0) then mret 0.0%f
  else
    score ← int_truediv (pos - neg) (Z.max 1 (pos + neg));
    mret (max (-1.0)%f (min 1.0%f score)).

Definition volatility_hint (text : pystr) : result float :=
  let t := lower text in
  let vol := matches VOL_WORDS t in
  q ← truediv (float_of_int vol) 3.0%f;
  mret (min 1.0%f q).

(** The same two functions on an argument of any type: [text.lower()]
    is looked up on the object; [bytes] has the method, and then
    [w in t] of a [str] in [bytes] is a type error. *)
Definition lower_method {A} (text : object) (k : pystr -> result A) : result A :=
  match text with
  | PyStr s => k s
  | PyBytes _ => Raise TypeError
  | _ => Raise AttributeError
  end.

Definition simple_sentiment_any (text : object) : result float :=
  lower_method text simple_sentiment.

Definition volatility_hint_any (text : object) : result float :=
  lower_method text volatility_hint.
End scorer.

Definition clamp (v lo hi : float) : float := max lo (min hi v).
Arguments clamp : simpl never.

End utils.

(** ** evc_engine.py: the state engine *)

Module evc_engine.
Import utils.

Inductive phase := overheat | fear | cooldown | focus | calm.

Inductive source := perception | reflection.

(** The attributes of an [EVCEngine] object. *)
Record EVCEngine := {
  E : float;
  loss : float;
  K : float;
  clamp_low : float;
  clamp_high : float;
  overheat_th : float;
  fear_th : float;
  cooldown_m : float;
  _stability : float
}.

Definition set_E (self : EVCEngine) (v : float) : EVCEngine :=
  {| E := v; loss := loss self; K := K self;
     clamp_low := clamp_low self; clamp_high := clamp_high self;
     overheat_th := overheat_th self; fear_th := fear_th self;
     cooldown_m := cooldown_m self; _stability := _stability self |}.

Definition set_K (self : EVCEngine) (v : float) : EVCEngine :=
  {| E := E self; loss := loss self; K := v;
     clamp_low := clamp_low self; clamp_high := clamp_high self;
     overheat_th := overheat_th self; fear_th := fear_th self;
     cooldown_m := cooldown_m self; _stability := _stability self |}.

Definition set_stability (self : EVCEngine) (v : float) : EVCEngine :=
  {| E := E self; loss := loss self; K := K self;
     clamp_low := clamp_low self; clamp_high := clamp_high self;
     overheat_th := overheat_th self; fear_th := fear_th self;
     cooldown_m := cooldown_m self; _stability := v |}.

(** [__init__]: of the configuration only the section [evc] is read. *)
Definition __init__ (cfg : gmap pystr (gmap pystr float)) : EVCEngine :=
  let evc := default ∅ (cfg !! utf8 "evc") in
  {| E := default 0.5%f (evc !! utf8 "E_init");
     loss := default 0.02%f (evc !! utf8 "loss");
     K := default 0.45%f (evc !! utf8 "K");
     clamp_low := default 0.0%f (evc !! utf8 "clamp_low");
     clamp_high := default 1.5%f (evc !! utf8 "clamp_high");
     overheat_th := default 1.1%f (evc !! utf8 "overheat_threshold");
     fear_th := default 0.25%f (evc !! utf8 "fear_threshold");
     cooldown_m := default 0.05%f (evc !! utf8 "cooldown_margin");
     _stability := 0.5%f |}.

Definition _phase (self : EVCEngine) : phase :=
  if (E self >= overheat_th self)%f then overheat
  else if (E self <= fear_th self)%f then fear
  else if (fabs (E self - 0.5) <= cooldown_m self)%f then cooldown
  else if (E self > 0.55)%f then focus
  else calm.

(** The dictionaries returned by the two updates. *)
Record info := {
  info_E : float;
  info_phase : phase;
  info_dE : float;
  info_source : source;
  info_K : option float
}.

Section updates.
Context `{StrLower}.

Definition update_from_text (self : EVCEngine) (user_text : pystr)
  : result (info * EVCEngine) :=
  sent ← simple_sentiment user_text;
  vol ← volatility_hint user_text;
  let dE := (K self * (0.25 * sent + 0.35 * vol))%f in
  let self := set_E self
    (clamp (E self + dE - loss self)%f (clamp_low self) (clamp_high self)) in
  mret ({| info_E := E self; info_phase := _phase self; info_dE := dE;
           info_source := perception; info_K := None |}, self).
End updates.

Definition update_from_reflection (self : EVCEngine) (vector : gmap pystr float)
  : info * EVCEngine :=
  let coh := default 0.6%f (vector !! utf8 "coherence") in
  let tox := default 0.0%f (vector !! utf8 "toxicity") in
  let sat := default 0.5%f (vector !! utf8 "satisfaction") in
  let verb := default 0.5%f (vector !! utf8 "verbosity") in
  let dE := (K self * (-0.3 * coh + 0.4 * tox - 0.2 * sat + 0.05 * verb))%f in
  let self := set_E self
    (clamp (E self + dE - 0.5 * loss self)%f (clamp_low self) (clamp_high self)) in
  let target_stability := (1.0 - min 1.0 (fabs (E self - 0.5)))%f in
  let self := set_stability self
    (0.8 * _stability self + 0.2 * target_stability)%f in
  let self := set_K self
    (clamp (K self * (0.98 + 0.04 * _stability self))%f 0.25%f 0.75%f) in
  ({| info_E := E self; info_phase := _phase self; info_dE := dE;
      info_source := reflection; info_K := Some (K self) |}, self).

(** The strings that [_phase] returns. *)
Definition phase_name (p : phase) : pystr :=
  match p with
  | overheat => utf8 "overheat"
  | fear => utf8 "fear"
  | cooldown => utf8 "cooldown"
  | focus => utf8 "focus"
  | calm => utf8 "calm"
  end.

Definition default_tone : pystr := utf8 "เป็นทางการ สุภาพ ชัดเจน".

(** [tone_from_phase] *)
Definition tone_from_phase (self : EVCEngine) (tone_map : gmap pystr pystr) : pystr :=
  default default_tone (tone_map !! phase_name (_phase self)).

(** *** The reflection update on a vector of any values

    [vector.get(name, default)] hands on whatever the dictionary holds;
    each value is then the right operand of a product with a [float]. *)

(** What such a product raises: [TypeError] on a value that is no
    number, [OverflowError] on an [int] too large for a [float]. *)
Inductive raised := RaisedTypeError | RaisedOverflowError.

(** [c * o] for a [float] [c]: the operand [o] as a [float]. A [bool] is
    an [int]. *)
Definition operand (o : object) : raised + float :=
  match o with
  | PyFloat x => inr x
  | PyBool b => inr (float_of_int (if b then 1 else 0))
  | PyInt z =>
      match float_of_int z with
      | S754_infinity _ => inl RaisedOverflowError
      | x => inr x
      end
  | PyNone | PyStr _ | PyBytes _ | PyList _ => inl RaisedTypeError
  end.

(** [update_from_reflection]: the four products are evaluated from the
    left, before anything is assigned. *)
Definition update_from_reflection_any (self : EVCEngine) (vector : gmap pystr object)
  : raised + (info * EVCEngine) :=
  let coh := default (PyFloat 0.6%f) (vector !! utf8 "coherence") in
  let tox := default (PyFloat 0.0%f) (vector !! utf8 "toxicity") in
  let sat := default (PyFloat 0.5%f) (vector !! utf8 "satisfaction") in
  let verb := default (PyFloat 0.5%f) (vector !! utf8 "verbosity") in
  match operand coh with
  | inl e => inl e
  | inr coh =>
  match operand tox with
  | inl e => inl e
  | inr tox =>
  match operand sat with
  | inl e => inl e
  | inr sat =>
  match operand verb with
  | inl e => inl e
  | inr verb =>
      let dE := (K self * (-0.3 * coh + 0.4 * tox - 0.2 * sat + 0.05 * verb))%f in
      let self := set_E self
        (clamp (E self + dE - 0.5 * loss self)%f (clamp_low self) (clamp_high self)) in
      let target_stability := (1.0 - min 1.0 (fabs (E self - 0.5)))%f in
      let self := set_stability self
        (0.8 * _stability self + 0.2 * target_stability)%f in
      let self := set_K self
        (clamp (K self * (0.98 + 0.04 * _stability self))%f 0.25%f 0.75%f) in
      inr ({| info_E := E self; info_phase := _phase self; info_dE := dE;
              info_source := reflection; info_K := Some (K self) |}, self)
  end end end end.

End evc_engine.

(** ** reflection.py: the reflection scorer *)

Module reflection.

Definition toxic_words : list pystr :=
  utf8 <$> ["โง่"; "เกลียด"; "สวะ"; "ชัง"; "เถียง"; "หยาบคาย"].

Definition c01 (x : float) : float := max 0.0%f (min 1.0%f x).

Definition bullet : pystr := utf8 "- ".
Definition blank_line : pystr := [10; 10]%N.

Definition reflect (user_input draft_answer : pystr) : result (gmap pystr float) :=
  q ← truediv (float_of_int (len draft_answer)) 300.0%f;
  let coherence :=
    min 1.0%f
      (q + 0.2 * float_of_int (count draft_answer bullet + count draft_answer blank_line))%f in
  let toxicity :=
    if existsb (fun w => contains w draft_answer) toxic_words then 1.0%f else 0.0%f in
  let user_words : gset pystr := list_to_set (split user_input) in
  let draft_words : gset pystr := list_to_set (split draft_answer) in
  r ← truediv (float_of_int (Z.of_nat (size (user_words ∩ draft_words))))
              (float_of_int (Z.of_nat (size user_words)) + 1e-6)%f;
  let satisfaction := min 1.0%f (r + 0.2)%f in
  v ← truediv (float_of_int (len draft_answer)) 800.0%f;
  let verbosity := min 1.0%f v in
  mret (<[utf8 "coherence" := c01 coherence]>
        (<[utf8 "toxicity" := c01 toxicity]>
         (<[utf8 "satisfaction" := c01 satisfaction]>
          (<[utf8 "verbosity" := c01 verbosity]> ∅)))).

End reflection.

(** ** core_llm.py: what the backend returns when it is unavailable *)

Module core_llm.

(** [_fallback_response(mode)] for every mode but ["evc"]. *)
Definition _fallback_response_chat : pystr :=
  utf8 "⚠️ ไม่สามารถเชื่อมต่อ LLM ได้ กรุณาตรวจสอบการเชื่อมต่อ".

(** [os.getenv(name, default)] over the environment [env]. *)
Definition getenv (env : gmap pystr pystr) (name default_value : pystr) : pystr :=
  default default_value (env !! name).

Fixpoint lstrip_slashes (s : pystr) : pystr :=
  match s with
  | c :: s' => if (c =? 47)%N then lstrip_slashes s' else s
  | [] => []
  end.

(** [re.sub(r"/(v1|api)$", "", url)]: [$] matches at the end of the
    string and also before a newline that ends it. *)
Definition without_version (s : pystr) : option pystr :=
  if endswith s (utf8 "/v1") then Some (take (length s - 3) s)
  else if endswith s (utf8 "/api") then Some (take (length s - 4) s)
  else None.

Definition sub_version (url : pystr) : pystr :=
  match without_version url with
  | Some url' => url'
  | None =>
      match rev url with
      | c :: r =>
          if (c =? 10)%N then
            match without_version (rev r) with
            | Some url' => url' ++ [10%N]
            | None => url
            end
          else url
      | [] => url
      end
  end.

(** [_normalize_url]. The stripped text ends in no newline, so
    [re.sub(r"/+$", "", ...)] drops the slashes at its end. *)
Definition _normalize_url (url : pystr) : pystr :=
  match url with
  | [] => []
  | _ => sub_version (rev (lstrip_slashes (rev (strip url))))
  end.

(** [_is_local] *)
Definition _is_local (url : pystr) : bool :=
  contains (utf8 "localhost") url || contains (utf8 "127.0.0.1") url.

Definition cloud_indicators : list pystr :=
  utf8 <$> ["cloud"; "gpt-oss"; "openai"; "together"; "replicate"; "huggingface"].

Record LLMCore := {
  provider : pystr;
  base_url : pystr;
  model : pystr;
  api_key : pystr;
  timeout : Z;
  debug : bool;
  is_cloud : bool
}.

Definition default_system_prompt : pystr :=
  utf8 "You are a helpful assistant. Respond in Thai language.".

Section backend.
Context `{StrLower}.

(** [_detect_cloud_provider] *)
Definition _detect_cloud_provider (model : pystr) : bool :=
  existsb (fun indicator => contains indicator (lower model)) cloud_indicators.

(** [LLMCore()], over the environment of the process. *)
Definition __init__ (env : gmap pystr pystr) : LLMCore :=
  let model := getenv env (utf8 "OPENAI_MODEL") (utf8 "gpt-4o-mini") in
  {| provider := lower (getenv env (utf8 "LLM_PROVIDER") (utf8 "offline"));
     base_url := _normalize_url (getenv env (utf8 "OPENAI_BASE_URL") []);
     model := model;
     api_key := getenv env (utf8 "OPENAI_API_KEY") [];
     timeout := 30;
     debug := bool_decide (lower (getenv env (utf8 "DEBUG_LOG") (utf8 "true")) = utf8 "true");
     is_cloud := _detect_cloud_provider model |}.

(** The two calls over the network are the arguments [_call_ollama] and
    [_call_cloud_api]; [offline_json] is the text that [json.dumps]
    returns in [_fallback_response] for the mode ["evc"]. *)
Variable _call_ollama _call_cloud_api : LLMCore -> pystr -> pystr -> pystr -> pystr.
Variable offline_json : pystr.

(** [_fallback_response] *)
Definition _fallback_response (mode : pystr) : pystr :=
  if bool_decide (mode = utf8 "evc") then offline_json else _fallback_response_chat.

(** [generate]; the argument [evc_state] is stored and logged, and read
    again only where the prompt of a call over the network is built. *)
Definition generate (self : LLMCore) (prompt system_prompt mode : pystr) : pystr :=
  let system_prompt :=
    match system_prompt with [] => default_system_prompt | _ => system_prompt end in
  if bool_decide (provider self = utf8 "offline")
     || match base_url self with [] => true | _ => false end
  then _fallback_response mode
  else if _is_local (base_url self) || bool_decide (provider self = utf8 "ollama")
  then _call_ollama self prompt system_prompt mode
  else _call_cloud_api self prompt system_prompt mode.
End backend.

End core_llm.

(** ** web.py: the handler of the chat form *)

Module web.
Import utils evc_engine reflection.

(** The fields of [st.session_state]. *)
Record session_state := {
  chat_log : list (pystr * pystr);
  E_vals : list float;
  K_vals : list float;
  phase_vals : list phase;
  last_dE : float;
  processing : bool
}.

Definition initial_session : session_state :=
  {| chat_log := []; E_vals := []; K_vals := []; phase_vals := [];
     last_dE := 0.0%f; processing := false |}.

Definition error_marker : pystr := utf8 "⚠️".

Definition apology : pystr :=
  utf8 "ขออภัยค่ะ ระบบมีปัญหาชั่วคราว กรุณาลองใหม่อีกครั้ง".

(** [answer]: the reply kept for the turn. *)
Definition answer_of (raw_answer : pystr) : pystr :=
  if startswith raw_answer error_marker then apology else raw_answer.

(** The vector of the [except] branch around [reflect]. *)
Definition reflect_failed_vector : gmap pystr float :=
  <[utf8 "coherence" := 0.5%f]>
  (<[utf8 "toxicity" := 0.0%f]>
   (<[utf8 "satisfaction" := 0.5%f]>
    (<[utf8 "verbosity" := 0.5%f]> ∅))).

(** Step 4: [try: rvec = reflect(...) except Exception: rvec = {...}]. *)
Definition rvec_of (user_input answer : pystr) : gmap pystr float :=
  match reflect user_input answer with
  | Ok rvec => rvec
  | Raise _ => reflect_failed_vector
  end.

Section handler.
Context `{StrLower}.

(** One run of the block under [if submit and user_input.strip() and
    not st.session_state.processing]. The reply of [llm.generate] is
    the argument [raw_answer]; building the prompt, the messages shown
    and [mem.save_turn] (guarded by its own [try]) touch neither the
    engine nor the session lists. *)
Definition on_submit (evc : EVCEngine) (ss : session_state)
    (submit : bool) (user_input raw_answer : pystr)
  : EVCEngine * session_state :=
  if submit && strip_truthy user_input && negb (processing ss) then
    match update_from_text evc user_input with
    | Raise _ =>
        (evc, {| chat_log := chat_log ss; E_vals := E_vals ss;
                 K_vals := K_vals ss; phase_vals := phase_vals ss;
                 last_dE := last_dE ss; processing := false |})
    | Ok (info1, evc) =>
        let answer := answer_of raw_answer in
        let rvec := rvec_of user_input answer in
        let '(info2, evc) := update_from_reflection evc rvec in
        (evc, {| chat_log := chat_log ss ++ [(user_input, answer)];
                 E_vals := E_vals ss ++ [info_E info2];
                 K_vals := K_vals ss ++ [default 0.0%f (info_K info2)];
                 phase_vals := phase_vals ss ++ [info_phase info2];
                 last_dE := info_dE info1;
                 processing := false |})
    end
  else (evc, ss).

(** What one run of the script receives: the state of the button, the
    text of the form and, when the backend is called, its reply. *)
Record submission := {
  submit : bool;
  user_input : pystr;
  raw_answer : pystr
}.

(** One run of the script. The script is executed from its first line on
    every interaction: [evc = EVCEngine(cfg)] builds the engine anew,
    and only [st.session_state] lives on from one run to the next. *)
Definition script_run (cfg : gmap pystr (gmap pystr float))
    (ss : session_state) (ev : submission) : session_state :=
  snd (on_submit (evc_engine.__init__ cfg) ss
         (submit ev) (user_input ev) (raw_answer ev)).

Definition run_session (cfg : gmap pystr (gmap pystr float))
    (events : list submission) : session_state :=
  fold_left (script_run cfg) events initial_session.

(** The runs whose form is handled while the session is idle. *)
Definition handled (ev : submission) : bool :=
  submit ev && strip_truthy (user_input ev).
End handler.

End web.

(** ** enhanced_dual_ai.py: the conversation store *)

Module enhanced_dual_ai.
Import evc_engine.

(** [collections.deque(maxlen=n)]: [append] adds on the right and, when
    the length exceeds [maxlen], drops the leftmost element. *)
Record deque (A : Type) := { maxlen : Z; items : list A }.
Arguments maxlen {A} d.
Arguments items {A} d.

Definition deque_new {A} (n : Z) : result (deque A) :=
  if n <? 0 then Raise ValueError else Ok {| maxlen := n; items := [] |}.

Definition deque_append {A} (d : deque A) (x : A) : deque A :=
  let l := items d ++ [x] in
  {| maxlen := maxlen d; items := if len l >? maxlen d then tail l else l |}.

Record turn := {
  timestamp : pystr;
  speaker : pystr;
  message : pystr;
  response : pystr;
  evc_state : info
}.

Record ConversationMemory := {
  turns : deque turn;
  full_history : list turn;
  summary : pystr;
  key_points : list pystr
}.

(** [__init__(max_turns)] *)
Definition __init__ (max_turns : Z) : result ConversationMemory :=
  d ← deque_new max_turns;
  mret {| turns := d; full_history := []; summary := []; key_points := [] |}.

(** [add_turn]; the record built from the arguments and from the clock
    ([datetime.now().isoformat()]) is the argument [t]. *)
Definition add_turn (self : ConversationMemory) (t : turn) : ConversationMemory :=
  {| turns := deque_append (turns self) t;
     full_history := full_history self ++ [t];
     summary := summary self;
     key_points := key_points self |}.

(** [get_summary_context] *)
Definition summary_header : pystr := utf8 "=== CONVERSATION SUMMARY ===" ++ [10%N].

Definition is_topic (t : turn) : bool :=
  contains (utf8 "สนทนา") (message t) || contains (utf8 "กล่าว") (message t).

Definition get_summary_context (self : ConversationMemory) : pystr :=
  if len (full_history self) >? 50 then
    let topics :=
      (fun t => slice_to (message t) 100)
        <$> List.filter is_topic (slice_from (full_history self) (-20)) in
    summary_header
    ++ (utf8 "Total turns: " ++ str_of_int (len (full_history self)) ++ [10%N])
    ++ (utf8 "Recent topics: " ++ join (utf8 ", ") (slice_to topics 3) ++ [10%N])
    ++ (utf8 "---" ++ [10%N])
  else [].

(** What [raise Exception(...)] of [respond] leaves to its caller. *)
Inductive outcome (A : Type) :=
| Returned (a : A)
| RaisedException (cause : exn).
Arguments Returned {A} a.
Arguments RaisedException {A} cause.

(** An [EnhancedAIPlayer]; the memory that the players of a conversation
    share is passed along with the player. *)
Record EnhancedAIPlayer := {
  name : pystr;
  evc : EVCEngine;
  personality : pystr
}.

(** [_init_personality] *)
Definition _init_personality (name : pystr) : pystr :=
  let personalities : gmap pystr pystr :=
    <[utf8 "A" := utf8 "นักวิเคราะห์ที่ตรงไปตรงมา มีเหตุผล ชอบใช้ข้อมูลเพื่อสนับสนุน"]>
    (<[utf8 "B" := utf8 "ผู้ที่สร้างสรรค์ นิยมถามคำถาม ชอบสำรวจแนวคิดใหม่"]> ∅) in
  default (utf8 "ผู้สนทนาธรรมดา") (personalities !! name).

Definition new_player (name : pystr) (cfg : gmap pystr (gmap pystr float))
  : EnhancedAIPlayer :=
  {| name := name; evc := evc_engine.__init__ cfg;
     personality := _init_personality name |}.

(** The dictionary [turn_data]. *)
Record turn_data := {
  td_player : pystr;
  td_prompt : pystr;
  td_response : pystr;
  td_evc_before : info;
  td_evc_after : info;
  td_reflection : gmap pystr float;
  td_mode : pystr;
  td_timestamp : pystr
}.

Definition error_marker : pystr := utf8 "⚠️".

(** The response kept when the reply carries the marker. *)
Definition connection_error (name : pystr) : pystr :=
  utf8 "⚠️ " ++ name ++ utf8 " - ข้อผิดพลาดการเชื่อมต่อ".

Definition except_vector : gmap pystr float :=
  <[utf8 "coherence" := 0.5%f]>
  (<[utf8 "toxicity" := 0.0%f]>
   (<[utf8 "satisfaction" := 0.5%f]>
    (<[utf8 "verbosity" := 0.5%f]> ∅))).

Section memory_search.
Context `{StrLower}.

(** [search_related] *)
Definition search_related (self : ConversationMemory) (keyword : pystr) : list turn :=
  let results :=
    List.filter
      (fun t => contains (lower keyword) (lower (message t))
                || contains (lower keyword) (lower (response t)))
      (full_history self) in
  slice_from results (-5).

(** [respond]. The reply of [llm.generate] is the argument
    [raw_response], the two readings of the clock are [now_turn] and
    [now_data]; the system prompt is built from the memory and handed to
    the backend only. *)
Definition respond (self : EnhancedAIPlayer) (memory : ConversationMemory)
    (prompt mode raw_response now_turn now_data : pystr)
  : outcome (pystr * turn_data * EnhancedAIPlayer * ConversationMemory) :=
  match update_from_text (evc self) prompt with
  | Raise e => RaisedException e
  | Ok (evc_info, evc1) =>
      let response :=
        if startswith raw_response error_marker
        then connection_error (name self) else raw_response in
      let rvec :=
        match reflection.reflect prompt response with
        | Ok rvec => rvec
        | Raise _ => except_vector
        end in
      let '(evc_info2, evc2) := update_from_reflection evc1 rvec in
      let memory :=
        add_turn memory
          {| timestamp := now_turn; speaker := name self; message := prompt;
             response := response; evc_state := evc_info2 |} in
      Returned
        (response,
         {| td_player := name self; td_prompt := prompt; td_response := response;
            td_evc_before := evc_info; td_evc_after := evc_info2;
            td_reflection := rvec; td_mode := mode; td_timestamp := now_data |},
         {| name := name self; evc := evc2; personality := personality self |},
         memory)
  end.
End memory_search.

End enhanced_dual_ai.

(** ** selfplay_trainer.py: an episode of two engines in turn *)

Module selfplay_trainer.
Import evc_engine.

(** An entry of the history. *)
Record entry := {
  h_t : Z;
  h_speaker : pystr;
  h_prompt : pystr;
  h_reply : pystr;
  h_evc : info;
  h_reflection : gmap pystr float
}.

Definition opening (topic : pystr) : pystr := utf8 "เริ่มอภิปรายหัวข้อ: " ++ topic.

(** The variables of the loop: the two engines, the history, whose turn
    it is and the message to answer. *)
Record loop_state := {
  a : EVCEngine;
  b : EVCEngine;
  hist : list entry;
  who : Z;
  msg : pystr
}.

(** [range(n)] *)
Definition range (n : Z) : list Z := Z.of_nat <$> seq 0 (Z.to_nat n).

Section episode.
Context `{StrLower}.

(** [generate(msg, tone)], the call of the backend, is the argument
    [generate]; it is given the number of the turn as well, since the
    backend may answer the same request differently each time.
    [tone_map] is the value of [cfg.get("tone_map", {})]. *)
Variable generate : Z -> pystr -> pystr -> pystr.
Variable tone_map : gmap pystr pystr.

(** The body of the loop. [eng] is one of the two objects [a] and [b]:
    what the updates do to it is written back to that one. *)
Definition turn (st : loop_state) (t : Z) : result loop_state :=
  let eng := if who st =? 0 then a st else b st in
  match update_from_text eng (msg st) with
  | Raise e => Raise e
  | Ok (_, eng) =>
      let tone := tone_from_phase eng tone_map in
      let reply := generate t (msg st) tone in
      rvec ← reflection.reflect (msg st) reply;
      let '(info, eng) := update_from_reflection eng rvec in
      mret {| a := if who st =? 0 then eng else a st;
              b := if who st =? 0 then b st else eng;
              hist := hist st ++
                [ {| h_t := t;
                     h_speaker := if who st =? 0 then utf8 "A" else utf8 "B";
                     h_prompt := msg st; h_reply := reply;
                     h_evc := info; h_reflection := rvec |} ];
              who := 1 - who st;
              msg := reply |}
  end.

Fixpoint loop (ts : list Z) (st : loop_state) : result loop_state :=
  match ts with
  | [] => mret st
  | t :: ts => st ← turn st t; loop ts st
  end.

(** [run_episode(cfg, topic, max_turns)]: the topic and the history. *)
Definition run_episode (cfg : gmap pystr (gmap pystr float)) (topic : pystr)
    (max_turns : Z) : result (pystr * list entry) :=
  let st := {| a := evc_engine.__init__ cfg; b := evc_engine.__init__ cfg;
               hist := []; who := 0; msg := opening topic |} in
  st ← loop (range max_turns) st;
  mret (topic, hist st).
End episode.

End selfplay_trainer.

(** ** Vocabulary of the properties *)

Import utils evc_engine.

(** One update of the engine, and the run of a sequence of updates from a
    state: the states reached after each update, in order. *)
Inductive update :=
| Perceive (user_text : pystr)
| Reflect (vector : gmap pystr float).

Section runs.
Context `{StrLower}.

Definition apply_update (self : EVCEngine) (u : update) : result EVCEngine :=
  match u with
  | Perceive user_text => r ← update_from_text self user_text; mret (snd r)
  | Reflect vector => mret (snd (update_from_reflection self vector))
  end.

Fixpoint run (self : EVCEngine) (us : list update) : result (list EVCEngine) :=
  match us with
  | [] => mret []
  | u :: us' =>
      self' ← apply_update self u;
      rest ← run self' us';
      mret (self' :: rest)
  end.
End runs.

(** [lo <= x <= hi] on floats. *)
Definition between (lo hi x : float) : Prop :=
  (lo <= x)%f = true /\ (x <= hi)%f = true.

(** The bounds of [K]: the two literals of [update_from_reflection]. *)
Definition K_lo : float := 0.25%f.
Definition K_hi : float := 0.75%f.

(** A configuration is valid when its clamp bounds are ordered and its
    initial [K] lies within the bounds of [K]. *)
Definition valid_config (cfg : gmap pystr (gmap pystr float)) : Prop :=
  let e := evc_engine.__init__ cfg in
  (clamp_low e <= clamp_high e)%f = true /\ between K_lo K_hi (K e).

(** The classifier the way the specification words it: an ordered list
    of (predicate, phase) pairs read from the top, the first match wins,
    [calm] when none matches. *)
Fixpoint first_match {A} (rules : list (bool * A)) (otherwise : A) : A :=
  match rules with
  | [] => otherwise
  | (holds, a) :: rules' => if holds then a else first_match rules' otherwise
  end.

Definition phase_rules (E overheat_threshold fear_threshold cooldown_margin : float)
  : list (bool * phase) :=
  [ ((E >= overheat_threshold)%f, overheat);
    ((E <= fear_threshold)%f, fear);
    ((fabs (E - 0.5) <= cooldown_margin)%f, cooldown);
    ((E > 0.55)%f, focus) ].

Definition phase_of (E overheat_threshold fear_threshold cooldown_margin : float) : phase :=
  first_match (phase_rules E overheat_threshold fear_threshold cooldown_margin) calm.

(** A reflection vector with its four fields. *)
Definition vector_of (coherence toxicity satisfaction verbosity : float)
  : gmap pystr float :=
  <[utf8 "coherence" := coherence]>
  (<[utf8 "toxicity" := toxicity]>
   (<[utf8 "satisfaction" := satisfaction]>
    (<[utf8 "verbosity" := verbosity]> ∅))).

(** The neutral defaults. *)
Definition neutral_vector : gmap pystr float := vector_of 0.6%f 0.0%f 0.5%f 0.5%f.

(** A vector with the neutral default in place of every missing field. *)
Definition with_defaults (vector : gmap pystr float) : gmap pystr float :=
  vector_of (default 0.6%f (vector !! utf8 "coherence"))
            (default 0.0%f (vector !! utf8 "toxicity"))
            (default 0.5%f (vector !! utf8 "satisfaction"))
            (default 0.5%f (vector !! utf8 "verbosity")).

(** The fields that the reflection update reads. *)
Definition reflection_fields : list pystr :=
  utf8 <$> ["coherence"; "toxicity"; "satisfaction"; "verbosity"].

(** A vector whose fields, where present, are numbers. *)
Definition numbers_only (vector : gmap pystr object) : Prop :=
  forall name o, name ∈ reflection_fields -> vector !! name = Some o ->
    exists x, operand o = inr x.

(** The number [x] that an update reads for the field [name]: the value
    present, or else [default_value]. *)
Definition field_number (vector : gmap pystr object) (name : pystr)
    (default_value x : float) : Prop :=
  match vector !! name with
  | Some o => operand o = inr x
  | None => x = default_value
  end.

(** The reflection update the way the specification words it, on the
    numbers alone: the delta, then the new [E], stability and [K]. *)
Section reflection_rule.
Let w3 : float := 0.3%f.
Let w4 : float := 0.4%f.
Let w5 : float := 0.2%f.
Let w6 : float := 0.05%f.

Definition reflection_rule (E K stability decay_loss E_lo E_hi : float)
    (coherence toxicity satisfaction verbosity : float)
  : float * float * float * float :=
  let dE := (K * (- w3 * coherence + w4 * toxicity - w5 * satisfaction
                  + w6 * verbosity))%f in
  let E_new := clamp (E + dE - 0.5 * decay_loss)%f E_lo E_hi in
  let target_stability := (1.0 - min 1.0 (fabs (E_new - 0.5)))%f in
  let stability_new := (0.8 * stability + 0.2 * target_stability)%f in
  let K_new := clamp (K * (0.98 + 0.04 * stability_new))%f K_lo K_hi in
  (dE, E_new, stability_new, K_new).
End reflection_rule.

(** What [simple_sentiment] makes of its two counts, and the table of the
    facts claimed of it, as a test on a pair of counts. *)
Definition sentiment_of_counts (pos neg : Z) : result float :=
  if (pos =? 0) && (neg =? 0) then mret 0.0%f
  else
    score ← int_truediv (pos - neg) (Z.max 1 (pos + neg));
    mret (max (-1.0)%f (min 1.0%f score)).

Definition sentiment_facts (pos neg : Z) (s : float) : Prop :=
  (pos = 0 -> neg = 0 -> s = 0.0%f) /\
  (~ (pos = 0 /\ neg = 0) ->
   s = (float_of_int (pos - neg) / float_of_int (pos + neg))%f) /\
  (0 < pos -> neg = 0 -> s = 1.0%f) /\
  (pos = 0 -> 0 < neg -> s = (-1.0)%f) /\
  between (-1.0)%f 1.0%f s.

Definition sentiment_facts_b (pos neg : Z) : bool :=
  match sentiment_of_counts pos neg with
  | Ok s =>
      (if (pos =? 0) && (neg =? 0) then bool_decide (s = 0.0%f)
       else bool_decide (s = (float_of_int (pos - neg) / float_of_int (pos + neg))%f))
      && (if (0 <? pos) && (neg =? 0) then bool_decide (s = 1.0%f) else true)
      && (if (pos =? 0) && (0 <? neg) then bool_decide (s = (-1.0)%f) else true)
      && (-1.0 <= s)%f && (s <= 1.0)%f
  | Raise _ => false
  end.

(** The same for [volatility_hint] and its count. *)
Definition volatility_of_count (vol : Z) : result float :=
  q ← truediv (float_of_int vol) 3.0%f;
  mret (min 1.0%f q).

Definition volatility_facts_b (vol : Z) : bool :=
  match volatility_of_count vol with
  | Ok v => (if vol =? 0 then bool_decide (v = 0.0%f) else true)
            && (0.0 <= v)%f && (v <= 1.0)%f
  | Raise _ => false
  end.

(** A float of sign [sx] that is neither a zero nor NaN, its exponent
    not below the least one of the format. *)
Definition finite_or_infinite (sx : bool) (x : float) : Prop :=
  (exists m e, x = S754_finite sx m e /\ emin prec emax <= e) \/ x = S754_infinity sx.

(** *** The order of floats through keys

    The comparison of two floats that are not NaN is the comparison of
    their keys in the lexicographic order of triples of integers: the
    class (the infinities at the ends, the zeros in the middle), then the
    exponent, then the mantissa, both negated for a negative float. *)
Definition fkey (x : float) : option (Z * Z * Z) :=
  match x with
  | S754_nan => None
  | S754_infinity true => Some (-2, 0, 0)
  | S754_infinity false => Some (2, 0, 0)
  | S754_zero _ => Some (0, 0, 0)
  | S754_finite true m e => Some (-1, - e, Z.neg m)
  | S754_finite false m e => Some (1, e, Z.pos m)
  end.

Definition lex3 (a b : Z * Z * Z) : comparison :=
  match a.1.1 ?= b.1.1 with
  | Eq => match a.1.2 ?= b.1.2 with
          | Eq => a.2 ?= b.2
          | c => c
          end
  | c => c
  end.

Definition lt3 (a b : Z * Z * Z) : Prop :=
  a.1.1 < b.1.1 \/ (a.1.1 = b.1.1 /\ (a.1.2 < b.1.2 \/ (a.1.2 = b.1.2 /\ a.2 < b.2))).

(** What [volatility_hint] makes of its count, as a test on the count:
    0.0 without a match, the thirds below three matches, 1.0 from three
    matches on. *)
Definition volatility_shape_b (vol : Z) : bool :=
  match volatility_of_count vol with
  | Ok v =>
      (0.0 <= v)%f && (v <= 1.0)%f
      && (if vol =? 0 then bool_decide (v = 0.0%f) else true)
      && (if 3 <=? vol then bool_decide (v = 1.0%f) else true)
      && (if vol <? 3 then bool_decide (v = (float_of_int vol / 3.0)%f) && (v < 1.0)%f
          else true)
  | Raise _ => false
  end.



(** What holds of the variables of the loop of [run_episode] before
    every turn: [who] is 0 or 1 and both engines have the clamp bounds
    [lo] and [hi]. *)
Definition loop_invariant (lo hi : float) (st : selfplay_trainer.loop_state) : Prop :=
  (selfplay_trainer.who st = 0 \/ selfplay_trainer.who st = 1) /\
  (clamp_low (selfplay_trainer.a st) = lo /\ clamp_high (selfplay_trainer.a st) = hi) /\
  (clamp_low (selfplay_trainer.b st) = lo /\ clamp_high (selfplay_trainer.b st) = hi).

(** What holds of the entry [e] that turn [t] appends when it is the
    turn of [who] to answer [msg]. *)
Definition entry_of (generate : Z -> pystr -> pystr -> pystr) (lo hi : float)
    (who : Z) (msg : pystr) (t : Z) (e : selfplay_trainer.entry) : Prop :=
  selfplay_trainer.h_t e = t /\
  selfplay_trainer.h_speaker e = (if who =? 0 then utf8 "A" else utf8 "B") /\
  selfplay_trainer.h_prompt e = msg /\
  (exists tone, selfplay_trainer.h_reply e = generate t msg tone) /\
  reflection.reflect msg (selfplay_trainer.h_reply e)
    = Ok (selfplay_trainer.h_reflection e) /\
  info_source (selfplay_trainer.h_evc e) = reflection /\
  (exists k, info_K (selfplay_trainer.h_evc e) = Some k /\ between K_lo K_hi k) /\
  ((lo <= hi)%f = true -> between lo hi (info_E (selfplay_trainer.h_evc e))).

(** The entry [e] records what the engine [eng] returns when it
    perceives the prompt of [e] and then reflects on its vector. *)
Definition computed_from `{H : StrLower} (eng : EVCEngine) (e : selfplay_trainer.entry) : Prop :=
  exists eng1,
    apply_update eng (Perceive (selfplay_trainer.h_prompt e)) = Ok eng1 /\
    selfplay_trainer.h_evc e =
      fst (update_from_reflection eng1 (selfplay_trainer.h_reflection e)).

(** An environment in which the backend makes no call: no base URL is
    set, or no provider is (given that lowering keeps ["offline"]). *)
Definition offline_env `{H : StrLower} (env : gmap pystr pystr) : Prop :=
  env !! utf8 "OPENAI_BASE_URL" = None \/
  (env !! utf8 "LLM_PROVIDER" = None /\ lower (utf8 "offline") = utf8 "offline").

(** Inputs of the examples. *)
Module examples.
Import web enhanced_dual_ai.

Definition cfg_narrow : gmap pystr (gmap pystr float) :=
  {[ utf8 "evc" :=
       <[utf8 "clamp_low" := 0.2%f]>
       (<[utf8 "clamp_high" := 0.8%f]>
        (<[utf8 "K" := 0.3%f]> ∅)) ]}.

Definition cfg_K_high : gmap pystr (gmap pystr float) :=
  {[ utf8 "evc" := {[ utf8 "K" := 0.9%f ]} ]}.

Definition updates : list update :=
  [ Perceive (utf8 "ดีมาก ด่วน วิกฤต แรง");
    Reflect (vector_of 0.0%f 1.0%f 0.0%f 1.0%f);
    Perceive (utf8 "แย่ ผิด พัง");
    Reflect ∅;
    Reflect (vector_of 1.0%f 0.0%f 1.0%f 0.0%f) ].

Definition vector_out_of_range : gmap pystr object :=
  <[utf8 "coherence" := PyFloat 100.0%f]> (<[utf8 "toxicity" := PyInt (-5)]> ∅).

Definition vector_malformed : gmap pystr object :=
  {[ utf8 "coherence" := PyStr (utf8 "high") ]}.

Definition vector_coherence (x : float) : gmap pystr object :=
  {[ utf8 "coherence" := PyFloat x ]}.

Definition hello : pystr := utf8 "hello".

Definition cfg_inverted : gmap pystr (gmap pystr float) :=
  {[ utf8 "evc" :=
       <[utf8 "clamp_low" := 1.0%f]> (<[utf8 "clamp_high" := 0.0%f]> ∅) ]}.

(** The engine of the default configuration after it has perceived
    [hello]. *)
Definition after_hello : EVCEngine :=
  match apply_update (H := ascii_lower) (evc_engine.__init__ ∅) (Perceive hello) with
  | Ok evc => evc
  | Raise _ => evc_engine.__init__ ∅
  end.

Definition a_turn (n : N) : turn :=
  {| timestamp := utf8 "2025-01-01T00:00:00"; speaker := utf8 "A";
     message := [n]; response := [n; n];
     evc_state := {| info_E := 0.5%f; info_phase := cooldown; info_dE := 0.0%f;
                     info_source := reflection; info_K := Some 0.45%f |} |}.

(** Three runs of the chat form: a text that is answered, a blank text,
    and a text whose call of the backend fails. *)
Definition submissions : list submission :=
  [ {| submit := true; user_input := hello; raw_answer := utf8 "hi there" |};
    {| submit := true; user_input := utf8 "   "; raw_answer := [] |};
    {| submit := true; user_input := utf8 "ดีมาก ด่วน";
       raw_answer := core_llm._fallback_response_chat |} ].

(** A store of capacity twenty with fifty-one turns in its archive. *)
Definition fifty_one_turns : list turn :=
  (fun n => a_turn (N.of_nat n)) <$> seq 0 51.

Definition long_store : ConversationMemory :=
  {| turns := {| maxlen := 20; items := drop 31 fifty_one_turns |};
     full_history := fifty_one_turns; summary := []; key_points := [] |}.

(** A backend that answers every request with the request itself and
    the number of the turn. *)
Definition echo (t : Z) (prompt tone : pystr) : pystr :=
  prompt ++ utf8 " " ++ str_of_int t.
End examples.

(** ** Facts on binary64 comparisons, [min], [max] and [clamp] *)

Section float_facts.

Lemma SFcompare_refl (x : float) :
  is_nan x = false -> SFcompare x x = Some Eq.
Proof.
  destruct x as [s|s| |s m e]; simpl; try done; destruct s; try done;
    rewrite Z.compare_refl, Pos.compare_cont_refl; done.
Qed.

Lemma fle_refl (x : float) : is_nan x = false -> (x <= x)%f = true.
Proof. intros Hx. unfold fle, SFleb. by rewrite SFcompare_refl. Qed.

Lemma flt_fle (x y : float) : (x < y)%f = true -> (x <= y)%f = true.
Proof. unfold flt, fle, SFltb, SFleb. by destruct (SFcompare x y) as [[]|]. Qed.

Lemma fle_not_nan (x y : float) :
  (x <= y)%f = true -> is_nan x = false /\ is_nan y = false.
Proof. unfold fle, SFleb. by destruct x, y. Qed.

(** [clamp] lands between ordered bounds whatever its first argument,
    NaN and the infinities included. *)
Lemma clamp_between (v lo hi : float) :
  (lo <= hi)%f = true -> between lo hi (clamp v lo hi).
Proof.
  intros Hle. destruct (fle_not_nan _ _ Hle) as [Hlo Hhi].
  unfold between, clamp, max, min.
  destruct (v < hi)%f eqn:Hv.
  - destruct (lo < v)%f eqn:Hl.
    + split; by apply flt_fle.
    + split; [by apply fle_refl | done].
  - destruct (lo < hi)%f eqn:Hl.
    + split; [by apply flt_fle | by apply fle_refl].
    + split; [by apply fle_refl | done].
Qed.

Lemma K_bounds_ordered : (K_lo <= K_hi)%f = true.
Proof. reflexivity. Qed.

End float_facts.

(** ** Rounding a positive mantissa never yields a zero

    Shifting a mantissa right by fewer places than it has digits leaves a
    positive mantissa, and the rounding of the format shifts by the
    excess over 53 digits only, as long as the exponent is not below the
    least one. *)

Section rounding_facts.

Lemma shr_1_positive (r : shr_record) (s : positive) :
  shr_m r = Zpos s ->
  1 < Zpos (digits2_pos s) ->
  exists s', shr_m (shr_1 r) = Zpos s' /\
             Zpos (digits2_pos s') = Zpos (digits2_pos s) - 1.
Proof.
  destruct r as [m r0 s0]. cbn [shr_m]. intros -> Hd.
  destruct s as [p|p|]; cbn [shr_1 shr_m digits2_pos] in *.
  - exists p. split; [reflexivity|lia].
  - exists p. split; [reflexivity|lia].
  - lia.
Qed.

Lemma iter_shr_1_positive (k : positive) :
  forall (r : shr_record) (s : positive),
    shr_m r = Zpos s ->
    Zpos k < Zpos (digits2_pos s) ->
    exists s', shr_m (SpecFloat.iter_pos shr_1 k r) = Zpos s' /\
               Zpos (digits2_pos s') = Zpos (digits2_pos s) - Zpos k.
Proof.
  induction k as [k IH|k IH|]; intros r s Hr Hk; cbn [SpecFloat.iter_pos].
  - destruct (shr_1_positive r s Hr) as (s1 & H1 & D1); [lia|].
    destruct (IH _ _ H1) as (s2 & H2 & D2); [lia|].
    destruct (IH _ _ H2) as (s3 & H3 & D3); [lia|].
    exists s3. split; [exact H3|lia].
  - destruct (IH _ _ Hr) as (s2 & H2 & D2); [lia|].
    destruct (IH _ _ H2) as (s3 & H3 & D3); [lia|].
    exists s3. split; [exact H3|lia].
  - apply shr_1_positive; assumption.
Qed.

Lemma shr_fexp_positive (m : positive) (e : Z) (l : location) :
  emin prec emax <= e ->
  exists mrs e' m',
    shr_fexp prec emax (Zpos m) e l = (mrs, e') /\
    shr_m mrs = Zpos m' /\ emin prec emax <= e'.
Proof.
  intros He. unfold shr_fexp, shr.
  assert (Hloc : shr_m (shr_record_of_loc (Zpos m) l) = Zpos m)
    by (destruct l as [|[]]; reflexivity).
  destruct (fexp prec emax (Zdigits2 (Zpos m) + e) - e) as [|p|p] eqn:Hn.
  - eexists _, _, _. split; [reflexivity|]. split; [exact Hloc|exact He].
  - unfold fexp, emin, prec, emax in *. cbn [Zdigits2] in Hn.
    destruct (iter_shr_1_positive p _ _ Hloc) as (m' & Hm' & _); [lia|].
    eexists _, _, _. split; [reflexivity|]. split; [exact Hm'|lia].
  - eexists _, _, _. split; [reflexivity|]. split; [exact Hloc|exact He].
Qed.

Lemma binary_round_aux_positive (sx : bool) (m : positive) (e : Z) (l : location) :
  emin prec emax <= e ->
  finite_or_infinite sx (binary_round_aux prec emax sx (Zpos m) e l).
Proof.
  intros He. unfold binary_round_aux.
  destruct (shr_fexp_positive m e l He) as (mrs1 & e1 & m1 & -> & Hm1 & He1).
  rewrite Hm1.
  assert (exists m2, round_nearest_even (Zpos m1) (loc_of_shr_record mrs1) = Zpos m2)
    as [m2 ->].
  { unfold round_nearest_even.
    destruct (loc_of_shr_record mrs1) as [|[]]; try (by eexists).
    - destruct (Z.even (Zpos m1)); by eexists.
  }
  destruct (shr_fexp_positive m2 e1 loc_Exact He1) as (mrs2 & e2 & m3 & -> & Hm3 & He2).
  rewrite Hm3.
  destruct (e2 <=? emax - prec); [left|right; reflexivity].
  eexists _, _. split; [reflexivity|exact He2].
Qed.

Lemma binary_round_positive (sx : bool) (m : positive) (e : Z) :
  emin prec emax <= e ->
  finite_or_infinite sx (binary_round prec emax sx m e).
Proof.
  intros He. unfold binary_round, shl_align.
  destruct (fexp prec emax (Zpos (digits2_pos m) + e) - e) eqn:Hd;
    apply binary_round_aux_positive; try exact He.
  unfold fexp. lia.
Qed.

Lemma float_of_int_cases (z : Z) :
  0 <= z ->
  float_of_int z = S754_zero false \/ finite_or_infinite false (float_of_int z).
Proof.
  intros Hz. unfold float_of_int, binary_normalize.
  destruct z as [|p|p]; [left; reflexivity | right | lia].
  apply binary_round_positive. unfold emin, prec, emax. lia.
Qed.

(** The sum of a non-negative integer and a positive finite float is not
    a zero. *)
Lemma fadd_int_positive_nonzero (z : Z) (m : positive) (e : Z) :
  0 <= z -> emin prec emax <= e ->
  is_zero (float_of_int z + S754_finite false m e)%f = false.
Proof.
  intros Hz He.
  destruct (float_of_int_cases z Hz) as [->|[(mx & ex & -> & Hex)| ->]];
    try reflexivity.
  unfold fadd, SFadd, binary_normalize. cbn [cond_Zopp].
  rewrite <- Pos2Z.inj_add. cbv iota.
  destruct (binary_round_positive false
              (fst (shl_align mx ex (Z.min ex e)) + fst (shl_align m e (Z.min ex e)))
              (Z.min ex e)) as [(m' & e' & Hr & _)|Hr]; [lia| |];
    rewrite Hr; reflexivity.
Qed.

End rounding_facts.

(** ** The lexicon scorer returns on every text *)

Section scorer_facts.
Context `{StrLower}.

Lemma matches_nonneg (words : gset pystr) (t : pystr) : 0 <= matches words t.
Proof. unfold matches, len. lia. Qed.

Lemma matches_le_size (words : gset pystr) (t : pystr) :
  matches words t <= Z.of_nat (size words).
Proof.
  unfold matches, len, size, set_size. simpl.
  apply inj_le, List.filter_length_le.
Qed.

Lemma simple_sentiment_returns (text : pystr) :
  exists s, simple_sentiment text = Ok s.
Proof.
  unfold simple_sentiment.
  set (pos := matches POS_WORDS (lower text)).
  set (neg := matches NEG_WORDS (lower text)).
  destruct ((pos =? 0) && (neg =? 0)); [by eexists|].
  unfold int_truediv.
  destruct (Z.max 1 (pos + neg) =? 0) eqn:Hz; [lia|].
  by eexists.
Qed.

Lemma volatility_hint_returns (text : pystr) :
  exists v, volatility_hint text = Ok v.
Proof. unfold volatility_hint, truediv. simpl. by eexists. Qed.

Lemma update_from_text_returns (self : EVCEngine) (user_text : pystr) :
  exists sent vol,
    simple_sentiment user_text = Ok sent /\
    volatility_hint user_text = Ok vol /\
    let dE := (K self * (0.25 * sent + 0.35 * vol))%f in
    let self' := set_E self
      (clamp (E self + dE - loss self)%f (clamp_low self) (clamp_high self)) in
    update_from_text self user_text =
      Ok ({| info_E := E self'; info_phase := _phase self'; info_dE := dE;
             info_source := perception; info_K := None |}, self').
Proof.
  destruct (simple_sentiment_returns user_text) as [sent Hs].
  destruct (volatility_hint_returns user_text) as [vol Hv].
  exists sent, vol. split; [done|]. split; [done|].
  unfold update_from_text. rewrite Hs, Hv. reflexivity.
Qed.

End scorer_facts.

(** ** The engine: frame, bounds and the clamping invariant *)

Section engine_facts.
Context `{StrLower}.

(** C6. The perception update changes only [E]: on every text and from
    every state [update_from_text] returns, and [K], the stability
    accumulator and the configured constants of the state it returns are
    those of the state it started from. A turn that stops after its
    perception update therefore keeps its [K]. *)
Theorem update_from_text_changes_only_E (self : EVCEngine) (user_text : pystr) :
  exists (i : info) (self' : EVCEngine),
    update_from_text self user_text = Ok (i, self') /\
    K self' = K self /\
    _stability self' = _stability self /\
    self' = set_E self (E self').
Proof.
  destruct (update_from_text_returns self user_text)
    as (sent & vol & _ & _ & Hupd).
  eexists _, _. split; [exact Hupd|].
  cbn [K _stability set_E E]. repeat split.
Qed.

Lemma update_from_reflection_K (self : EVCEngine) (vector : gmap pystr float) :
  between K_lo K_hi (K (snd (update_from_reflection self vector))).
Proof.
  unfold update_from_reflection. cbn [snd K set_K].
  apply clamp_between, K_bounds_ordered.
Qed.

(** C10. After every call of [update_from_reflection], from every state
    (so whatever the configuration put into [K], NaN and the infinities
    included) and on every vector, [K] lies in [[0.25, 0.75]]: the
    bounds are the literals of the code, not read from the state. *)
Theorem update_from_reflection_forces_K (self : EVCEngine) (vector : gmap pystr float) :
  let self' := snd (update_from_reflection self vector) in
  (0.25 <= K self')%f = true /\ (K self' <= 0.75)%f = true.
Proof.
  unfold update_from_reflection. cbn [snd K set_K].
  apply (clamp_between _ 0.25%f 0.75%f). vm_compute. reflexivity.
Qed.

(** One update from a state with ordered clamp bounds returns, keeps the
    bounds and leaves [E] between them, whatever [K] is. *)
Lemma apply_update_E (self : EVCEngine) (u : update) :
  (clamp_low self <= clamp_high self)%f = true ->
  exists self',
    apply_update self u = Ok self' /\
    clamp_low self' = clamp_low self /\
    clamp_high self' = clamp_high self /\
    between (clamp_low self) (clamp_high self) (E self').
Proof.
  intros Hle. destruct u as [user_text|vector].
  - destruct (update_from_text_returns self user_text)
      as (sent & vol & _ & _ & Hupd).
    eexists. unfold apply_update. rewrite Hupd.
    split; [reflexivity|]. cbn [snd clamp_low clamp_high E set_E].
    repeat split; by apply clamp_between.
  - eexists. split; [reflexivity|].
    split; [reflexivity|]. split; [reflexivity|].
    unfold update_from_reflection. cbn [snd E set_E set_K set_stability].
    by apply clamp_between.
Qed.

(** One update keeps [K] within its bounds: perception leaves it as it
    is, reflection clamps it. *)
Lemma apply_update_K (self self' : EVCEngine) (u : update) :
  apply_update self u = Ok self' ->
  between K_lo K_hi (K self) ->
  between K_lo K_hi (K self').
Proof.
  intros Hstep HK. destruct u as [user_text|vector].
  - destruct (update_from_text_returns self user_text)
      as (sent & vol & _ & _ & Hupd).
    unfold apply_update in Hstep. rewrite Hupd in Hstep.
    injection Hstep as <-. exact HK.
  - injection Hstep as <-. apply update_from_reflection_K.
Qed.

Lemma run_E_between (us : list update) (self : EVCEngine) :
  (clamp_low self <= clamp_high self)%f = true ->
  exists trace,
    run self us = Ok trace /\
    length trace = length us /\
    Forall (fun s => between (clamp_low self) (clamp_high self) (E s)) trace.
Proof.
  revert self. induction us as [|u us IH]; intros self Hle.
  - exists []. repeat split. constructor.
  - destruct (apply_update_E self u Hle) as (self' & Hstep & Hlo & Hhi & HE).
    destruct (IH self') as (trace & Hrun & Hlen & Hall).
    + rewrite Hlo, Hhi. exact Hle.
    + exists (self' :: trace). cbn [run]. rewrite Hstep. cbn. rewrite Hrun. cbn.
      split; [reflexivity|]. split; [by rewrite Hlen|].
      constructor; [exact HE|].
      rewrite Hlo, Hhi in Hall. exact Hall.
Qed.

Lemma run_K_between (us : list update) (self : EVCEngine) (trace : list EVCEngine) :
  run self us = Ok trace ->
  between K_lo K_hi (K self) ->
  Forall (fun s => between K_lo K_hi (K s)) trace.
Proof.
  revert self trace. induction us as [|u us IH]; intros self trace Hrun HK.
  - injection Hrun as <-. constructor.
  - cbn [run] in Hrun.
    destruct (apply_update self u) as [self'|] eqn:Hstep; [|discriminate].
    cbn in Hrun.
    destruct (run self' us) as [rest|] eqn:Hrest; [|discriminate].
    cbn in Hrun. injection Hrun as <-.
    pose proof (apply_update_K _ _ _ Hstep HK) as HK'.
    constructor; [exact HK'|]. by apply (IH self').
Qed.

(** C1. The clamping invariant. For every valid configuration and every
    finite sequence of perception and reflection updates, the run from
    the initial state returns (no update raises), and in the state after
    each update [E] lies within the configured clamp bounds and [K]
    within the bounds of [K]. *)
Theorem clamping_invariant (cfg : gmap pystr (gmap pystr float)) (us : list update) :
  valid_config cfg ->
  let E_lo := clamp_low (evc_engine.__init__ cfg) in
  let E_hi := clamp_high (evc_engine.__init__ cfg) in
  exists trace,
    run (evc_engine.__init__ cfg) us = Ok trace /\
    length trace = length us /\
    Forall (fun s => between E_lo E_hi (E s) /\ between K_lo K_hi (K s)) trace.
Proof.
  intros [Hle HK]. cbv zeta.
  destruct (run_E_between us _ Hle) as (trace & Hrun & Hlen & HE).
  pose proof (run_K_between us _ trace Hrun HK) as HKs.
  exists trace. split; [exact Hrun|]. split; [exact Hlen|].
  apply Forall_forall. intros s Hs.
  rewrite Forall_forall in HE. rewrite Forall_forall in HKs.
  split; [by apply HE | by apply HKs].
Qed.

End engine_facts.

(** A configuration whose initial [K] is 0.9: perception leaves [K] at
    0.9, above the upper bound, and the first reflection brings it to
    the bound. *)
Example K_out_of_bounds_until_reflection :
  let evc0 := evc_engine.__init__ examples.cfg_K_high in
  K evc0 = 0.9%f /\
  (exists evc1,
     apply_update (H := ascii_lower) evc0 (Perceive examples.hello) = Ok evc1 /\
     K evc1 = 0.9%f /\ (K evc1 <= K_hi)%f = false) /\
  K (snd (update_from_reflection evc0 ∅)) = 0.75%f.
Proof.
  cbv zeta. split; [vm_compute; reflexivity|]. split.
  - eexists. split; [reflexivity|]. split; vm_compute; reflexivity.
  - vm_compute. reflexivity.
Qed.

(** The literals are the binary64 values nearest to their decimals. *)
Example literal_values :
  0.1%f = S754_finite false 7205759403792794 (-56) /\
  0.25%f = S754_finite false 4503599627370496 (-54) /\
  0.75%f = lit 75 100 /\
  (-0.3)%f = fneg (lit 3 10) /\
  (1e-6)%f = lit 1 1000000 /\
  300.0%f = float_of_int 300.
Proof. repeat split; vm_compute; reflexivity. Qed.

Lemma clamping_invariant_witness :
  valid_config examples.cfg_narrow /\
  exists trace,
    run (H := ascii_lower) (evc_engine.__init__ examples.cfg_narrow) examples.updates = Ok trace /\
    length trace = length examples.updates /\
    Forall (fun s => between 0.2%f 0.8%f (E s) /\ between K_lo K_hi (K s)) trace.
Proof.
  assert (Hvalid : valid_config examples.cfg_narrow).
  { split; [|split]; vm_compute; reflexivity. }
  split; [exact Hvalid|].
  exact (clamping_invariant (H := ascii_lower) examples.cfg_narrow examples.updates Hvalid).
Defined.

(** ** The phase classifier *)

(** C2. The phase is a function of [E] and of the three configured
    thresholds alone, read off the ordered rules overheat, fear, cooldown,
    focus with the first match winning and [calm] otherwise; with the
    default thresholds, [E] = 1.15, 0.20, 0.50, 0.60 and 0.40 give
    overheat, fear, cooldown, focus and calm. Where two rules hold at
    once (at [E] = 0.5 under a fear threshold of 0.6, fear and cooldown)
    the earlier one gives the phase. *)
Theorem phase_first_match_wins :
  (forall self : EVCEngine,
     _phase self =
       phase_of (E self) (overheat_th self) (fear_th self) (cooldown_m self)) /\
  (forall E overheat_threshold fear_threshold cooldown_margin : float,
     phase_of E overheat_threshold fear_threshold cooldown_margin =
       if (E >= overheat_threshold)%f then overheat
       else if (E <= fear_threshold)%f then fear
       else if (fabs (E - 0.5) <= cooldown_margin)%f then cooldown
       else if (E > 0.55)%f then focus
       else calm) /\
  (let defaults := evc_engine.__init__ ∅ in
   overheat_th defaults = 1.1%f /\ fear_th defaults = 0.25%f /\
   cooldown_m defaults = 0.05%f /\
   _phase (set_E defaults 1.15%f) = overheat /\
   _phase (set_E defaults 0.20%f) = fear /\
   _phase (set_E defaults 0.50%f) = cooldown /\
   _phase (set_E defaults 0.60%f) = focus /\
   _phase (set_E defaults 0.40%f) = calm) /\
  (List.map fst (phase_rules 0.5%f 1.1%f 0.6%f 0.05%f) = [false; true; true; false] /\
   phase_of 0.5%f 1.1%f 0.6%f 0.05%f = fear).
Proof.
  split; [|split; [|split]].
  - intros self. unfold _phase, phase_of, phase_rules. cbn [first_match].
    reflexivity.
  - intros. unfold phase_of, phase_rules. cbn [first_match]. reflexivity.
  - repeat split; vm_compute; reflexivity.
  - repeat split; vm_compute; reflexivity.
Qed.

(** ** The reflection update *)

Section reflection_facts.

Lemma lookup_vector_of (coh tox sat verb : float) :
  let v := vector_of coh tox sat verb in
  v !! utf8 "coherence" = Some coh /\
  v !! utf8 "toxicity" = Some tox /\
  v !! utf8 "satisfaction" = Some sat /\
  v !! utf8 "verbosity" = Some verb.
Proof.
  unfold vector_of. cbv zeta.
  repeat split;
    repeat (first [ apply lookup_insert_eq
                  | rewrite lookup_insert_ne by (vm_compute; discriminate) ]).
Qed.

Lemma update_from_reflection_vector_of (self : EVCEngine) (coh tox sat verb : float) :
  update_from_reflection self (vector_of coh tox sat verb) =
    let '(dE, E_new, stability_new, K_new) :=
      reflection_rule (E self) (K self) (_stability self) (loss self)
        (clamp_low self) (clamp_high self) coh tox sat verb in
    let self' := set_K (set_stability (set_E self E_new) stability_new) K_new in
    ({| info_E := E_new; info_phase := _phase self'; info_dE := dE;
        info_source := reflection; info_K := Some K_new |}, self').
Proof.
  destruct (lookup_vector_of coh tox sat verb) as (Hc & Ht & Hs & Hv).
  unfold update_from_reflection. rewrite Hc, Ht, Hs, Hv.
  reflexivity.
Qed.

Lemma update_from_reflection_with_defaults (self : EVCEngine) (vector : gmap pystr float) :
  update_from_reflection self vector =
  update_from_reflection self (with_defaults vector).
Proof.
  unfold with_defaults. rewrite update_from_reflection_vector_of.
  reflexivity.
Qed.

(** C3. On every reflection vector, with [coherence], [toxicity],
    [satisfaction] and [verbosity] its fields (a missing one counted as
    its default), [update_from_reflection] computes
    [dE = K * (-0.3*coherence + 0.4*toxicity - 0.2*satisfaction +
    0.05*verbosity)], sets [E] to [clamp(E + dE - 0.5*loss, E_lo, E_hi)],
    then from the new [E] the target stability [1 - min(1, |E - 0.5|)],
    the stability [0.8*stability + 0.2*target] and
    [K = clamp(K * (0.98 + 0.04*stability), K_lo, K_hi)]; it changes
    nothing else and returns the delta, the new [E] and [K] and the phase
    of the new state. *)
Theorem update_from_reflection_rule (self : EVCEngine) (vector : gmap pystr float) :
  let coherence := default 0.6%f (vector !! utf8 "coherence") in
  let toxicity := default 0.0%f (vector !! utf8 "toxicity") in
  let satisfaction := default 0.5%f (vector !! utf8 "satisfaction") in
  let verbosity := default 0.5%f (vector !! utf8 "verbosity") in
  let dE := (K self * (-0.3 * coherence + 0.4 * toxicity - 0.2 * satisfaction
                       + 0.05 * verbosity))%f in
  let E_new := clamp (E self + dE - 0.5 * loss self)%f
                 (clamp_low self) (clamp_high self) in
  let target_stability := (1.0 - min 1.0 (fabs (E_new - 0.5)))%f in
  let stability_new := (0.8 * _stability self + 0.2 * target_stability)%f in
  let K_new := clamp (K self * (0.98 + 0.04 * stability_new))%f K_lo K_hi in
  let r := update_from_reflection self vector in
  reflection_rule (E self) (K self) (_stability self) (loss self)
    (clamp_low self) (clamp_high self) coherence toxicity satisfaction verbosity
    = (dE, E_new, stability_new, K_new) /\
  E (snd r) = E_new /\
  _stability (snd r) = stability_new /\
  K (snd r) = K_new /\
  snd r = set_K (set_stability (set_E self E_new) stability_new) K_new /\
  info_dE (fst r) = dE /\ info_E (fst r) = E_new /\
  info_K (fst r) = Some K_new /\ info_phase (fst r) = _phase (snd r) /\
  info_source (fst r) = reflection.
Proof.
  cbv zeta. rewrite update_from_reflection_with_defaults.
  unfold with_defaults. rewrite update_from_reflection_vector_of.
  unfold reflection_rule. cbv zeta.
  cbn [fst snd E K _stability set_E set_K set_stability
       info_dE info_E info_K info_phase info_source].
  repeat split.
Qed.

(** The number read for a field of a vector of numbers. *)
Lemma field_number_exists (vector : gmap pystr object) (name : pystr)
    (default_value : float) :
  numbers_only vector -> name ∈ reflection_fields ->
  exists x, field_number vector name default_value x /\
            operand (default (PyFloat default_value) (vector !! name)) = inr x.
Proof.
  intros Hnum Hin. unfold field_number.
  destruct (vector !! name) as [o|] eqn:Hlookup.
  - destruct (Hnum name o Hin Hlookup) as [x Hx]. exists x. split; exact Hx.
  - exists default_value. split; reflexivity.
Qed.

(** On numbers the update is the one on the vector of these numbers. *)
Lemma update_from_reflection_any_numbers (self : EVCEngine)
    (vector : gmap pystr object) (coh tox sat verb : float) :
  operand (default (PyFloat 0.6%f) (vector !! utf8 "coherence")) = inr coh ->
  operand (default (PyFloat 0.0%f) (vector !! utf8 "toxicity")) = inr tox ->
  operand (default (PyFloat 0.5%f) (vector !! utf8 "satisfaction")) = inr sat ->
  operand (default (PyFloat 0.5%f) (vector !! utf8 "verbosity")) = inr verb ->
  update_from_reflection_any self vector =
    inr (update_from_reflection self (vector_of coh tox sat verb)).
Proof.
  intros Hc Ht Hs Hv. unfold update_from_reflection_any.
  rewrite Hc, Ht, Hs, Hv.
  destruct (lookup_vector_of coh tox sat verb) as (Hc' & Ht' & Hs' & Hv').
  unfold update_from_reflection. rewrite Hc', Ht', Hs', Hv'.
  reflexivity.
Qed.

(** C5. On every vector whose fields, where present, are numbers,
    [update_from_reflection] returns, and the number it reads for each
    field is the value present or else the neutral default (coherence
    0.6, toxicity 0, satisfaction 0.5, verbosity 0.5): the delta is
    [K * (-0.3*coherence + 0.4*toxicity - 0.2*satisfaction +
    0.05*verbosity)] of these numbers and the new [E] is
    [clamp(E + dE - 0.5*loss, E_lo, E_hi)]. A value out of range enters
    the delta as it is; what is clamped is the outcome: [K] into its
    bounds, [E] into the clamp bounds of the state when these are
    ordered. *)
Theorem update_from_reflection_defaults_on_numbers
    (self : EVCEngine) (vector : gmap pystr object) :
  numbers_only vector ->
  exists coherence toxicity satisfaction verbosity : float,
    field_number vector (utf8 "coherence") 0.6%f coherence /\
    field_number vector (utf8 "toxicity") 0.0%f toxicity /\
    field_number vector (utf8 "satisfaction") 0.5%f satisfaction /\
    field_number vector (utf8 "verbosity") 0.5%f verbosity /\
    let dE := (K self * (-0.3 * coherence + 0.4 * toxicity - 0.2 * satisfaction
                         + 0.05 * verbosity))%f in
    let E_new := clamp (E self + dE - 0.5 * loss self)%f
                   (clamp_low self) (clamp_high self) in
    exists r,
      update_from_reflection_any self vector = inr r /\
      info_dE (fst r) = dE /\
      info_E (fst r) = E_new /\
      E (snd r) = E_new /\
      between K_lo K_hi (K (snd r)) /\
      ((clamp_low self <= clamp_high self)%f = true ->
       between (clamp_low self) (clamp_high self) (E (snd r))).
Proof.
  intros Hnum.
  destruct (field_number_exists vector (utf8 "coherence") 0.6%f Hnum)
    as (coh & Hfc & Hc); [repeat constructor|].
  destruct (field_number_exists vector (utf8 "toxicity") 0.0%f Hnum)
    as (tox & Hft & Ht); [repeat constructor|].
  destruct (field_number_exists vector (utf8 "satisfaction") 0.5%f Hnum)
    as (sat & Hfs & Hs); [repeat constructor|].
  destruct (field_number_exists vector (utf8 "verbosity") 0.5%f Hnum)
    as (verb & Hfv & Hv); [repeat constructor|].
  exists coh, tox, sat, verb.
  split; [exact Hfc|]. split; [exact Hft|]. split; [exact Hfs|]. split; [exact Hfv|].
  cbv zeta. eexists.
  split; [exact (update_from_reflection_any_numbers self vector coh tox sat verb Hc Ht Hs Hv)|].
  split.
  { rewrite update_from_reflection_vector_of. unfold reflection_rule. reflexivity. }
  split.
  { rewrite update_from_reflection_vector_of. unfold reflection_rule. reflexivity. }
  split.
  { rewrite update_from_reflection_vector_of. unfold reflection_rule. reflexivity. }
  split; [apply update_from_reflection_K|].
  intros Hle. unfold update_from_reflection.
  cbn [snd E set_E set_K set_stability]. by apply clamp_between.
Qed.

Lemma update_from_reflection_defaults_on_numbers_witness :
  numbers_only examples.vector_out_of_range /\
  exists r,
    update_from_reflection_any (evc_engine.__init__ ∅) examples.vector_out_of_range
      = inr r /\
    between 0.0%f 1.5%f (E (snd r)).
Proof.
  assert (Hnum : numbers_only examples.vector_out_of_range).
  { intros name o Hin Hlookup. unfold reflection_fields in Hin.
    cbn [fmap list_fmap] in Hin.
    repeat (apply elem_of_cons in Hin as [->|Hin]);
      try (by apply elem_of_nil in Hin);
      vm_compute in Hlookup; try discriminate Hlookup;
      injection Hlookup as <-; eexists; vm_compute; reflexivity. }
  split; [exact Hnum|].
  destruct (update_from_reflection_defaults_on_numbers
              (evc_engine.__init__ ∅) examples.vector_out_of_range Hnum)
    as (coh & tox & sat & verb & _ & _ & _ & _ & r & Hr & _ & _ & _ & _ & HE).
  exists r. split; [exact Hr|].
  apply HE. vm_compute. reflexivity.
Defined.

(** C5 as stated fails. A field that holds no number is not replaced by
    its default: the call raises [TypeError] (and [OverflowError] on an
    [int] beyond the range of [float]). And a value out of range is not
    clamped: coherence 100 gives another delta, and another [E], than
    coherence 1. *)
Lemma reflection_field_neither_defaulted_nor_clamped :
  let evc0 := evc_engine.__init__ ∅ in
  update_from_reflection_any evc0 examples.vector_malformed = inl RaisedTypeError /\
  update_from_reflection_any evc0 {[ utf8 "toxicity" := PyNone ]} = inl RaisedTypeError /\
  update_from_reflection_any evc0 {[ utf8 "verbosity" := PyInt (2 ^ 1024) ]}
    = inl RaisedOverflowError /\
  exists r100 r1,
    update_from_reflection_any evc0 (examples.vector_coherence 100.0%f) = inr r100 /\
    update_from_reflection_any evc0 (examples.vector_coherence 1.0%f) = inr r1 /\
    info_dE (fst r100) <> info_dE (fst r1) /\
    E (snd r100) <> E (snd r1).
Proof.
  cbv zeta.
  split; [vm_compute; reflexivity|].
  split; [vm_compute; reflexivity|].
  split; [vm_compute; reflexivity|].
  eexists _, _.
  split; [vm_compute; reflexivity|].
  split; [vm_compute; reflexivity|].
  split; vm_compute; intros Heq; discriminate Heq.
Qed.

End reflection_facts.

(** ** The lexicon scorer *)

Section sentiment_facts.
Context `{StrLower}.

Lemma simple_sentiment_counts (text : pystr) :
  simple_sentiment text =
  sentiment_of_counts (matches POS_WORDS (lower text)) (matches NEG_WORDS (lower text)).
Proof. reflexivity. Qed.

Lemma volatility_hint_count (text : pystr) :
  volatility_hint text = volatility_of_count (matches VOL_WORDS (lower text)).
Proof. reflexivity. Qed.

(** The lexicon is fixed, so the counts range over a finite table, which
    is checked entry by entry. *)
Lemma sentiment_table (p n : nat) :
  (p <= 18)%nat -> (n <= 16)%nat ->
  sentiment_facts_b (Z.of_nat p) (Z.of_nat n) = true.
Proof.
  intros Hp Hn.
  assert (Htable :
    forallb (fun p => forallb (fun n => sentiment_facts_b (Z.of_nat p) (Z.of_nat n))
                        (seq 0 17)) (seq 0 19) = true)
    by (vm_compute; reflexivity).
  rewrite forallb_forall in Htable.
  assert (Hin : In p (seq 0 19)) by (apply in_seq; lia).
  specialize (Htable p Hin). rewrite forallb_forall in Htable.
  apply Htable, in_seq. lia.
Qed.

Lemma volatility_table (n : nat) :
  (n <= 8)%nat -> volatility_facts_b (Z.of_nat n) = true.
Proof.
  intros Hn.
  assert (Htable :
    forallb (fun n => volatility_facts_b (Z.of_nat n)) (seq 0 9) = true)
    by (vm_compute; reflexivity).
  rewrite forallb_forall in Htable. apply Htable, in_seq. lia.
Qed.

Lemma sentiment_facts_b_sound (pos neg : Z) :
  sentiment_facts_b pos neg = true ->
  exists s, sentiment_of_counts pos neg = Ok s /\ sentiment_facts pos neg s.
Proof.
  unfold sentiment_facts_b. intros Hb.
  destruct (sentiment_of_counts pos neg) as [s|]; [|discriminate].
  exists s. split; [reflexivity|].
  apply andb_prop in Hb as [Hb Hhi]. apply andb_prop in Hb as [Hb Hlo].
  apply andb_prop in Hb as [Hb Hneg]. apply andb_prop in Hb as [Hzero Hpos].
  unfold sentiment_facts, between.
  destruct (Z.eqb_spec pos 0) as [Hp|Hp], (Z.eqb_spec neg 0) as [Hn|Hn];
    destruct (Z.ltb_spec 0 pos) as [Hp'|Hp'], (Z.ltb_spec 0 neg) as [Hn'|Hn'];
    cbn [andb] in Hzero, Hpos, Hneg;
    try apply bool_decide_eq_true_1 in Hzero;
    try apply bool_decide_eq_true_1 in Hpos;
    try apply bool_decide_eq_true_1 in Hneg;
    repeat split; intros; try assumption; try lia.
Qed.

Lemma simple_sentiment_table (text : pystr) :
  sentiment_facts_b (matches POS_WORDS (lower text)) (matches NEG_WORDS (lower text))
  = true.
Proof.
  pose proof (matches_nonneg POS_WORDS (lower text)) as Hp0.
  pose proof (matches_nonneg NEG_WORDS (lower text)) as Hn0.
  pose proof (matches_le_size POS_WORDS (lower text)) as Hp.
  pose proof (matches_le_size NEG_WORDS (lower text)) as Hn.
  change (size POS_WORDS) with 18%nat in Hp.
  change (size NEG_WORDS) with 16%nat in Hn.
  rewrite <- (Z2Nat.id _ Hp0), <- (Z2Nat.id _ Hn0).
  apply sentiment_table; lia.
Qed.

(** C7. For every text, with [pos] and [neg] the numbers of words of the
    positive and of the negative set found in the lowered text:
    [simple_sentiment] returns; it is exactly 0.0 when both counts are
    zero; otherwise it is the quotient [(pos - neg) / (pos + neg)]; it is
    exactly 1.0 when only positive words match and exactly -1.0 when
    only negative words match; and it always lies in [[-1, 1]]. *)
Theorem simple_sentiment_value (text : pystr) :
  let pos := matches POS_WORDS (lower text) in
  let neg := matches NEG_WORDS (lower text) in
  exists s : float,
    simple_sentiment text = Ok s /\
    (pos = 0 -> neg = 0 -> s = 0.0%f) /\
    (~ (pos = 0 /\ neg = 0) ->
     s = (float_of_int (pos - neg) / float_of_int (pos + neg))%f) /\
    (0 < pos -> neg = 0 -> s = 1.0%f) /\
    (pos = 0 -> 0 < neg -> s = (-1.0)%f) /\
    ((-1.0 <= s)%f = true /\ (s <= 1.0)%f = true).
Proof.
  cbv zeta. rewrite simple_sentiment_counts.
  destruct (sentiment_facts_b_sound _ _ (simple_sentiment_table text))
    as (s & Hs & Hzero & Hquot & Hpos & Hneg & Hrange).
  exists s. split; [exact Hs|].
  split; [exact Hzero|]. split; [exact Hquot|].
  split; [exact Hpos|]. split; [exact Hneg|exact Hrange].
Qed.

End sentiment_facts.

Lemma simple_sentiment_value_witness :
  0 < matches POS_WORDS (ascii_lower (utf8 "ดีมาก")) /\
  matches NEG_WORDS (ascii_lower (utf8 "ดีมาก")) = 0 /\
  simple_sentiment (H := ascii_lower) (utf8 "ดีมาก") = Ok 1.0%f.
Proof.
  destruct (simple_sentiment_value (H := ascii_lower) (utf8 "ดีมาก"))
    as (s & Hs & _ & _ & Hpos & _).
  assert (Hp : 0 < matches POS_WORDS (ascii_lower (utf8 "ดีมาก")))
    by (vm_compute; reflexivity).
  assert (Hn : matches NEG_WORDS (ascii_lower (utf8 "ดีมาก")) = 0)
    by (vm_compute; reflexivity).
  split; [exact Hp|]. split; [exact Hn|].
  rewrite Hs. f_equal. exact (Hpos Hp Hn).
Defined.

Section scorer_input.
Context `{StrLower}.

Lemma volatility_hint_value (text : pystr) :
  exists v : float,
    volatility_hint text = Ok v /\
    (matches VOL_WORDS (lower text) = 0 -> v = 0.0%f) /\
    between 0.0%f 1.0%f v.
Proof.
  rewrite volatility_hint_count.
  pose proof (matches_nonneg VOL_WORDS (lower text)) as H0.
  pose proof (matches_le_size VOL_WORDS (lower text)) as H8.
  change (size VOL_WORDS) with 8%nat in H8.
  pose proof (volatility_table (Z.to_nat (matches VOL_WORDS (lower text)))) as Hb.
  rewrite (Z2Nat.id _ H0) in Hb. specialize (Hb ltac:(lia)).
  unfold volatility_facts_b in Hb.
  destruct (volatility_of_count _) as [v|]; [|discriminate].
  exists v. split; [reflexivity|].
  apply andb_prop in Hb as [Hb Hhi]. apply andb_prop in Hb as [Hzero Hlo].
  split; [|split; assumption].
  intros Hz. rewrite Hz in Hzero. cbn [Z.eqb] in Hzero.
  by apply bool_decide_eq_true_1 in Hzero.
Qed.

(** C9, amended. The lexicon scorer has no failure mode on text: for
    every [str] both functions return, the sentiment within [[-1, 1]] and
    the volatility within [[0, 1]], and on the empty text both are 0.0.
    An argument that is not a [str] is outside the declared type of the
    two functions and is not read as the empty text: the call raises. *)
Theorem scorer_returns_on_text :
  (forall text : pystr,
     exists s v : float,
       simple_sentiment_any (PyStr text) = Ok s /\
       volatility_hint_any (PyStr text) = Ok v /\
       between (-1.0)%f 1.0%f s /\
       between 0.0%f 1.0%f v /\
       (text = [] -> lower [] = [] -> s = 0.0%f /\ v = 0.0%f)) /\
  (forall text : object,
     (forall s, text <> PyStr s) ->
     exists e1 e2,
       simple_sentiment_any text = Raise e1 /\
       volatility_hint_any text = Raise e2).
Proof.
  split.
  - intros text. cbn [simple_sentiment_any volatility_hint_any lower_method].
    destruct (sentiment_facts_b_sound _ _ (simple_sentiment_table text))
      as (s & Hs & Hzero & _ & _ & _ & Hrange).
    rewrite <- simple_sentiment_counts in Hs.
    destruct (volatility_hint_value text) as (v & Hv & Hvzero & Hvrange).
    exists s, v. split; [exact Hs|]. split; [exact Hv|].
    split; [exact Hrange|]. split; [exact Hvrange|].
    intros -> Hnil. rewrite Hnil in Hzero, Hvzero.
    split; [apply Hzero|apply Hvzero]; vm_compute; reflexivity.
  - intros text Hnot.
    destruct text as [| | | |s| |]; try (eexists _, _; split; reflexivity).
    exfalso. exact (Hnot s eq_refl).
Qed.

End scorer_input.

Lemma scorer_returns_on_text_witness :
  simple_sentiment_any (H := ascii_lower) (PyStr []) = Ok 0.0%f /\
  volatility_hint_any (H := ascii_lower) (PyStr []) = Ok 0.0%f /\
  (exists e, simple_sentiment_any (H := ascii_lower) (PyInt 7) = Raise e).
Proof.
  destruct (scorer_returns_on_text (H := ascii_lower)) as [Htext Hother].
  destruct (Htext []) as (s & v & Hs & Hv & _ & _ & Hzero).
  destruct (Hzero eq_refl eq_refl) as [-> ->].
  split; [exact Hs|]. split; [exact Hv|].
  destruct (Hother (PyInt 7)) as (e1 & e2 & He1 & _); [intros s; discriminate|].
  exists e1. exact He1.
Defined.

(** C9 as stated fails: on [None] neither function returns 0.0, both
    raise [AttributeError]; on [bytes] they raise [TypeError]. *)
Lemma scorer_raises_on_non_text :
  simple_sentiment_any (H := ascii_lower) PyNone = Raise AttributeError /\
  volatility_hint_any (H := ascii_lower) PyNone = Raise AttributeError /\
  simple_sentiment_any (H := ascii_lower) (PyBytes []) = Raise TypeError /\
  ~ (simple_sentiment_any (H := ascii_lower) PyNone = Ok 0.0%f /\
     volatility_hint_any (H := ascii_lower) PyNone = Ok 0.0%f).
Proof.
  repeat split. intros [Hs _]. discriminate Hs.
Qed.

(** ** The conversation store *)

Section store_facts.
Import enhanced_dual_ai.

Lemma deque_append_maxlen {A} (d : deque A) (x : A) :
  maxlen (deque_append d x) = maxlen d.
Proof. reflexivity. Qed.

(** Appending to a window that holds the last [n] elements of a log
    yields the last [n] elements of the extended log. *)
Lemma deque_append_suffix {A} (n : nat) (h : list A) (d : deque A) (x : A) :
  maxlen d = Z.of_nat n ->
  items d = drop (length h - n) h ->
  items (deque_append d x) = drop (length (h ++ [x]) - n) (h ++ [x]).
Proof.
  intros Hmax Hitems. unfold deque_append. cbn [items maxlen].
  rewrite Hmax, Hitems. unfold len.
  rewrite !length_app, length_drop. cbn [length].
  destruct (Z.gtb_spec (Z.of_nat (length h - (length h - n) + 1)) (Z.of_nat n)) as [Hgt|Hle].
  - assert (Hn : (n <= length h)%nat) by lia.
    replace (length h + 1 - n)%nat with (S (length h - n)) by lia.
    destruct (decide (n = 0%nat)) as [->|Hpos].
    + rewrite Nat.sub_0_r, drop_all.
      rewrite (drop_ge (h ++ [x])) by (rewrite length_app; cbn; lia).
      reflexivity.
    + rewrite drop_app_le by lia.
      replace (S (length h - n)) with (length h - n + 1)%nat by lia.
      rewrite <- drop_drop.
      destruct (drop (length h - n) h) as [|y l] eqn:Hdrop.
      * apply (f_equal length) in Hdrop. rewrite length_drop in Hdrop.
        cbn in Hdrop. lia.
      * reflexivity.
  - replace (length h - n)%nat with 0%nat by lia.
    replace (length h + 1 - n)%nat with 0%nat by lia.
    reflexivity.
Qed.

Lemma add_turns_window_archive (n : nat) (ts : list turn) (m : ConversationMemory) :
  maxlen (turns m) = Z.of_nat n ->
  items (turns m) = drop (length (full_history m) - n) (full_history m) ->
  let m' := fold_left add_turn ts m in
  maxlen (turns m') = Z.of_nat n /\
  full_history m' = full_history m ++ ts /\
  items (turns m') = drop (length (full_history m') - n) (full_history m').
Proof.
  revert m. induction ts as [|t ts IH]; intros m Hmax Hitems; cbn [fold_left].
  - rewrite app_nil_r. repeat split; assumption.
  - destruct (IH (add_turn m t)) as (Hmax' & Hhist & Hwin).
    + exact Hmax.
    + cbn [add_turn turns full_history]. by apply deque_append_suffix.
    + cbv zeta. rewrite Hmax', Hwin, Hhist. cbn [add_turn full_history].
      rewrite <- app_assoc. repeat split.
Qed.

(** C8. For every capacity [N] and every sequence of [N + 1] turns,
    appending them one after the other to a fresh store of window
    capacity [N] ends with a window holding exactly the last [N] of them
    and an archive holding all [N + 1], both in the order of appending. *)
Theorem window_keeps_last_N_archive_keeps_all (N : Z) (ts : list turn) :
  0 <= N ->
  len ts = N + 1 ->
  exists m0,
    enhanced_dual_ai.__init__ N = Ok m0 /\
    let m := fold_left add_turn ts m0 in
    items (turns m) = drop 1 ts /\
    len (items (turns m)) = N /\
    full_history m = ts /\
    len (full_history m) = N + 1.
Proof.
  intros HN Hlen. unfold enhanced_dual_ai.__init__, deque_new.
  destruct (Z.ltb_spec N 0) as [?|_]; [lia|].
  eexists. split; [reflexivity|].
  set (m0 := {| turns := {| maxlen := N; items := [] |}; full_history := [];
                summary := []; key_points := [] |}).
  destruct (add_turns_window_archive (Z.to_nat N) ts m0) as (_ & Hhist & Hwin).
  - cbn. lia.
  - reflexivity.
  - cbv zeta in *. cbn [full_history m0 app] in Hhist. unfold len in *.
    rewrite Hwin, Hhist.
    replace (length ts - Z.to_nat N)%nat with 1%nat by lia.
    rewrite length_drop. repeat split; lia.
Qed.

Lemma window_keeps_last_N_archive_keeps_all_witness :
  let ts := [examples.a_turn 1; examples.a_turn 2; examples.a_turn 3] in
  0 <= 2 /\ len ts = 2 + 1 /\
  exists m0,
    enhanced_dual_ai.__init__ 2 = Ok m0 /\
    items (turns (fold_left add_turn ts m0)) = [examples.a_turn 2; examples.a_turn 3] /\
    full_history (fold_left add_turn ts m0) = ts.
Proof.
  cbv zeta.
  assert (H0 : 0 <= 2) by lia.
  assert (Hlen : len [examples.a_turn 1; examples.a_turn 2; examples.a_turn 3] = 2 + 1)
    by reflexivity.
  split; [exact H0|]. split; [exact Hlen|].
  destruct (window_keeps_last_N_archive_keeps_all 2 _ H0 Hlen)
    as (m0 & Hinit & Hwin & _ & Hhist & _).
  exists m0. split; [exact Hinit|]. split; [exact Hwin | exact Hhist].
Defined.

End store_facts.

(** ** A turn whose backend call failed *)

Section turn_facts.
Import web core_llm reflection.
Context `{StrLower}.

(** [reflect] returns on every pair of texts: its divisors are 300.0,
    800.0 and a count plus 1e-6, none of them a zero. *)
Lemma reflect_returns (user_input draft_answer : pystr) :
  exists rvec, reflect user_input draft_answer = Ok rvec.
Proof.
  unfold reflect.
  assert (H300 : forall x, truediv x 300.0%f = Ok (x / 300.0)%f) by reflexivity.
  assert (H800 : forall x, truediv x 800.0%f = Ok (x / 800.0)%f) by reflexivity.
  rewrite H300, H800. cbn [mbind result_bind bind].
  unfold truediv at 1.
  change (1e-6)%f with (S754_finite false 4722366482869645 (-72)).
  rewrite fadd_int_positive_nonzero; [|lia|unfold emin, prec, emax; lia].
  by eexists.
Qed.

(** C4, amended. When the reply of the backend carries the marker (as
    the reply of [_fallback_response] in chat mode does), the handler
    keeps the canned apology as the answer of the turn, and the updates
    of the turn still take place: the perception update on the user
    text, then the reflection update on the vector that [reflect]
    returns for the user text and the apology. The turn is logged and
    the handler is ready for the next one. *)
Theorem backend_failure_turn_completes
    (evc : EVCEngine) (ss : session_state) (user_input raw_answer : pystr) :
  processing ss = false ->
  strip_truthy user_input = true ->
  startswith raw_answer error_marker = true ->
  startswith _fallback_response_chat error_marker = true /\
  exists (info1 : info) (evc1 : EVCEngine) (rvec : gmap pystr float),
    update_from_text evc user_input = Ok (info1, evc1) /\
    reflect user_input apology = Ok rvec /\
    let evc2 := snd (update_from_reflection evc1 rvec) in
    on_submit evc ss true user_input raw_answer =
      (evc2,
       {| chat_log := chat_log ss ++ [(user_input, apology)];
          E_vals := E_vals ss ++ [E evc2];
          K_vals := K_vals ss ++ [K evc2];
          phase_vals := phase_vals ss ++ [_phase evc2];
          last_dE := info_dE info1;
          processing := false |}).
Proof.
  intros Hidle Htext Hmark. split; [vm_compute; reflexivity|].
  destruct (update_from_text_returns evc user_input)
    as (sent & vol & _ & _ & Hupd).
  destruct (reflect_returns user_input apology) as [rvec Hrvec].
  eexists _, _, rvec. split; [exact Hupd|]. split; [exact Hrvec|].
  unfold on_submit. rewrite Hidle, Htext, Hupd.
  unfold answer_of. rewrite Hmark.
  unfold rvec_of. rewrite Hrvec. reflexivity.
Qed.

End turn_facts.

Lemma backend_failure_turn_completes_witness :
  let evc0 := evc_engine.__init__ ∅ in
  let raw := core_llm._fallback_response_chat in
  web.processing web.initial_session = false /\
  strip_truthy examples.hello = true /\
  startswith raw web.error_marker = true /\
  web.chat_log
    (snd (web.on_submit (H := ascii_lower) evc0 web.initial_session true examples.hello raw))
    = [(examples.hello, web.apology)].
Proof.
  cbv zeta.
  assert (Hidle : web.processing web.initial_session = false) by reflexivity.
  assert (Htext : strip_truthy examples.hello = true) by reflexivity.
  assert (Hmark : startswith core_llm._fallback_response_chat web.error_marker = true)
    by reflexivity.
  split; [exact Hidle|]. split; [exact Htext|]. split; [exact Hmark|].
  destruct (backend_failure_turn_completes (H := ascii_lower)
              (evc_engine.__init__ ∅) web.initial_session examples.hello
              core_llm._fallback_response_chat Hidle Htext Hmark)
    as (_ & info1 & evc1 & rvec & _ & _ & Hturn).
  cbv zeta in Hturn. rewrite Hturn. reflexivity.
Defined.

(** C4 as stated fails: on the text [hello] with the backend offline the
    reflection step returns a vector of its own for the apology, whose
    coherence is neither 0.6 nor 0.5, and the engine ends the turn in a
    state that is not the one the neutral defaults lead to. *)
Lemma backend_failure_not_neutral_defaults :
  let evc0 := evc_engine.__init__ ∅ in
  let evc1 := examples.after_hello in
  let raw := core_llm._fallback_response_chat in
  let turn := web.on_submit (H := ascii_lower) evc0 web.initial_session true
                examples.hello raw in
  startswith raw web.error_marker = true /\
  apply_update (H := ascii_lower) evc0 (Perceive examples.hello) = Ok evc1 /\
  reflection.reflect examples.hello web.apology
    = Ok (web.rvec_of examples.hello web.apology) /\
  web.rvec_of examples.hello web.apology !! utf8 "coherence" <> Some 0.6%f /\
  web.rvec_of examples.hello web.apology !! utf8 "coherence" <> Some 0.5%f /\
  E (fst turn) <> E (snd (update_from_reflection evc1 neutral_vector)) /\
  E (fst turn) <> E (snd (update_from_reflection evc1 ∅)) /\
  fst turn <> snd (update_from_reflection evc1 neutral_vector).
Proof.
  cbv zeta.
  assert (HE : E (fst (web.on_submit (H := ascii_lower) (evc_engine.__init__ ∅)
                         web.initial_session true examples.hello
                         core_llm._fallback_response_chat))
               <> E (snd (update_from_reflection examples.after_hello neutral_vector)))
    by (vm_compute; intros Heq; discriminate Heq).
  repeat split;
    try exact HE;
    try (intros Heq; apply HE; rewrite Heq; reflexivity);
    vm_compute; first [reflexivity | intros Heq; discriminate Heq].
Qed.

(** * Further properties of the code *)

(** ** The order of floats *)

Section float_order.

Lemma SFcompare_fkey (x y : float) :
  SFcompare x y =
    match fkey x, fkey y with
    | Some a, Some b => Some (lex3 a b)
    | _, _ => None
    end.
Proof.
  destruct x as [sx|sx| |sx mx ex], y as [sy|sy| |sy my ey];
    try destruct sx; try destruct sy; try reflexivity;
    cbn [SFcompare fkey]; f_equal; unfold lex3; cbn [fst snd].
  change (-1 ?= -1) with Eq. cbv iota.
  rewrite Z.compare_opp. rewrite (Z.compare_antisym ex ey).
  destruct (ex ?= ey); cbn [CompOpp]; reflexivity.
Qed.

Lemma lex3_lt (a b : Z * Z * Z) : lex3 a b = Lt <-> lt3 a b.
Proof.
  unfold lex3, lt3.
  destruct (Z.compare_spec a.1.1 b.1.1), (Z.compare_spec a.1.2 b.1.2),
    (Z.compare_spec a.2 b.2); split; intros; try discriminate; try reflexivity; lia.
Qed.

Lemma lex3_eq (a b : Z * Z * Z) : lex3 a b = Eq <-> a = b.
Proof.
  unfold lex3. destruct a as [[a1 a2] a3], b as [[b1 b2] b3]. cbn [fst snd].
  destruct (Z.compare_spec a1 b1), (Z.compare_spec a2 b2),
    (Z.compare_spec a3 b3); split; intros Heq; try discriminate; try reflexivity;
    try (injection Heq; intros; lia); subst; reflexivity.
Qed.

Lemma flt_fkey (x y : float) :
  (x < y)%f = match fkey x, fkey y with
              | Some a, Some b => bool_decide (lt3 a b)
              | _, _ => false
              end.
Proof.
  unfold flt, SFltb. rewrite SFcompare_fkey.
  destruct (fkey x) as [a|], (fkey y) as [b|]; try reflexivity.
  destruct (lex3 a b) eqn:Hc; symmetry.
  - apply bool_decide_eq_false. intros H. apply lex3_lt in H. congruence.
  - apply bool_decide_eq_true. by apply lex3_lt.
  - apply bool_decide_eq_false. intros H. apply lex3_lt in H. congruence.
Qed.

Lemma fle_fkey (x y : float) :
  (x <= y)%f = match fkey x, fkey y with
               | Some a, Some b => bool_decide (lt3 a b \/ a = b)
               | _, _ => false
               end.
Proof.
  unfold fle, SFleb. rewrite SFcompare_fkey.
  destruct (fkey x) as [a|], (fkey y) as [b|]; try reflexivity.
  destruct (lex3 a b) eqn:Hc; symmetry.
  - apply bool_decide_eq_true. right. by apply lex3_eq.
  - apply bool_decide_eq_true. left. by apply lex3_lt.
  - apply bool_decide_eq_false. intros [H|H].
    + apply lex3_lt in H. congruence.
    + apply lex3_eq in H. congruence.
Qed.

Lemma feq_fkey (x y : float) :
  feq x y = match fkey x, fkey y with
            | Some a, Some b => bool_decide (a = b)
            | _, _ => false
            end.
Proof.
  unfold feq, SFeqb. rewrite SFcompare_fkey.
  destruct (fkey x) as [a|], (fkey y) as [b|]; try reflexivity.
  destruct (lex3 a b) eqn:Hc; symmetry.
  - apply bool_decide_eq_true. by apply lex3_eq.
  - apply bool_decide_eq_false. intros H. apply lex3_eq in H. congruence.
  - apply bool_decide_eq_false. intros H. apply lex3_eq in H. congruence.
Qed.

End float_order.

(** Goals on the order of floats, by their keys. *)
Ltac float_order :=
  rewrite ?flt_fkey, ?fle_fkey, ?feq_fkey in *;
  repeat match goal with
  | |- context [fkey ?x] => destruct (fkey x) as [[[? ?] ?]|]
  | H : context [fkey ?x] |- _ => destruct (fkey x) as [[[? ?] ?]|]
  end;
  repeat match goal with
  | H : bool_decide _ = true |- _ => apply bool_decide_eq_true_1 in H
  | H : bool_decide _ = false |- _ => apply bool_decide_eq_false_1 in H
  | |- bool_decide _ = true => apply bool_decide_eq_true_2
  | |- bool_decide _ = false => apply bool_decide_eq_false_2
  end;
  unfold lt3 in *; cbn [fst snd] in *;
  rewrite ?pair_equal_spec in *;
  try discriminate; try reflexivity; try lia.

(** Case analysis on the comparisons of a goal, innermost first. *)
Ltac float_cases :=
  repeat match goal with
  | H : (?a < ?b)%f = _ |- context [(?a < ?b)%f] => rewrite H
  | |- context [(?a < ?b)%f] =>
      is_var a; is_var b; let H := fresh "Hlt" in destruct (a < b)%f eqn:H
  end.

(** ** [clamp] *)

Section clamp_facts.

(** X1. Between ordered bounds [clamp] is the projection onto the
    interval: a value within the bounds comes back equal to itself, a
    value below them comes back as the lower bound, a value above them
    and NaN come back equal to the upper bound. *)
Theorem clamp_projects (v lo hi : float) :
  (lo <= hi)%f = true ->
  ((lo <= v)%f = true -> (v <= hi)%f = true -> feq (clamp v lo hi) v = true) /\
  ((v < lo)%f = true -> clamp v lo hi = lo) /\
  ((hi < v)%f = true -> feq (clamp v lo hi) hi = true) /\
  (is_nan v = true -> feq (clamp v lo hi) hi = true).
Proof.
  intros Hb. repeat split.
  - intros Hlo Hhi. unfold clamp, max, min. float_cases; float_order.
  - intros Hlo. unfold clamp, max, min.
    float_cases; try reflexivity; exfalso; float_order.
  - intros Hhi. unfold clamp, max, min. float_cases; float_order.
  - intros Hnan. destruct v; try discriminate.
    unfold clamp, max, min. change (S754_nan < hi)%f with false. cbv iota.
    float_cases; float_order.
Qed.

(** X2. [clamp] is idempotent for all bounds, and monotone between
    ordered bounds. *)
Theorem clamp_idempotent_monotone (v w lo hi : float) :
  clamp (clamp v lo hi) lo hi = clamp v lo hi /\
  ((lo <= hi)%f = true -> (v <= w)%f = true ->
   (clamp v lo hi <= clamp w lo hi)%f = true).
Proof.
  split.
  - unfold clamp, max, min. float_cases; try reflexivity; exfalso; float_order.
  - intros Hb Hvw. unfold clamp, max, min. float_cases; float_order.
Qed.

Lemma clamp_inverted (v lo hi : float) :
  (hi < lo)%f = true -> clamp v lo hi = lo.
Proof.
  intros Hinv. unfold clamp, max, min.
  float_cases; try reflexivity; exfalso; float_order.
Qed.

End clamp_facts.

Lemma clamp_projects_witness :
  (0.0 <= 1.5)%f = true /\
  feq (clamp 0.7%f 0.0%f 1.5%f) 0.7%f = true /\
  clamp (-0.2)%f 0.0%f 1.5%f = 0.0%f /\
  feq (clamp 2.0%f 0.0%f 1.5%f) 1.5%f = true /\
  feq (clamp S754_nan 0.0%f 1.5%f) 1.5%f = true.
Proof.
  assert (Hb : (0.0 <= 1.5)%f = true) by reflexivity.
  split; [exact Hb|].
  destruct (clamp_projects 0.7%f _ _ Hb) as (Hin & _ & _ & _).
  destruct (clamp_projects (-0.2)%f _ _ Hb) as (_ & Hlow & _ & _).
  destruct (clamp_projects 2.0%f _ _ Hb) as (_ & _ & Hhigh & _).
  destruct (clamp_projects S754_nan _ _ Hb) as (_ & _ & _ & Hnan).
  split; [apply Hin; reflexivity|].
  split; [apply Hlow; reflexivity|].
  split; [apply Hhigh; reflexivity|].
  apply Hnan; reflexivity.
Defined.

Lemma clamp_idempotent_monotone_witness :
  (0.0 <= 1.5)%f = true /\ (0.3 <= 2.0)%f = true /\
  (clamp 0.3%f 0.0%f 1.5%f <= clamp 2.0%f 0.0%f 1.5%f)%f = true.
Proof.
  assert (Hb : (0.0 <= 1.5)%f = true) by reflexivity.
  assert (Hvw : (0.3 <= 2.0)%f = true) by reflexivity.
  split; [exact Hb|]. split; [exact Hvw|].
  exact (proj2 (clamp_idempotent_monotone 0.3%f 2.0%f 0.0%f 1.5%f) Hb Hvw).
Defined.

(** ** The engine at its edges *)

Section engine_edges.
Context `{StrLower}.

(** X3. With inverted clamp bounds (the upper below the lower) every
    update, perception or reflection, leaves [E] at the lower bound,
    whatever the text or the vector: the engine no longer moves. *)
Theorem inverted_bounds_pin_E (self : EVCEngine) (u : update) :
  (clamp_high self < clamp_low self)%f = true ->
  exists self',
    apply_update self u = Ok self' /\
    E self' = clamp_low self /\
    clamp_low self' = clamp_low self /\
    clamp_high self' = clamp_high self.
Proof.
  intros Hinv. destruct u as [user_text|vector].
  - destruct (update_from_text_returns self user_text)
      as (sent & vol & _ & _ & Hupd).
    eexists. unfold apply_update. rewrite Hupd.
    split; [reflexivity|]. cbn [snd E set_E clamp_low clamp_high].
    split; [by apply clamp_inverted|]. split; reflexivity.
  - eexists. split; [reflexivity|].
    unfold update_from_reflection.
    cbn [snd E set_E set_K set_stability clamp_low clamp_high].
    split; [by apply clamp_inverted|]. split; reflexivity.
Qed.

(** X4. A state whose [E] is NaN is classified [calm], whatever the
    thresholds: every test of the cascade fails on NaN. *)
Theorem phase_of_nan_is_calm (self : EVCEngine) :
  is_nan (E self) = true -> _phase self = calm.
Proof.
  intros Hnan. unfold _phase.
  destruct (E self); try discriminate.
  assert (Hge : forall x, (S754_nan >= x)%f = false)
    by (intros x; destruct x; reflexivity).
  assert (Hle : forall x, (S754_nan <= x)%f = false) by reflexivity.
  rewrite Hge, Hle.
  change (fabs (S754_nan - 0.5)%f) with S754_nan.
  rewrite Hle. reflexivity.
Qed.

Lemma volatility_shape (n : nat) :
  (n <= 8)%nat -> volatility_shape_b (Z.of_nat n) = true.
Proof.
  intros Hn.
  assert (Htable :
    forallb (fun n => volatility_shape_b (Z.of_nat n)) (seq 0 9) = true)
    by (vm_compute; reflexivity).
  rewrite forallb_forall in Htable. apply Htable, in_seq. lia.
Qed.

(** X5. The volatility of a text is 0.0 when no urgency word occurs in
    the lowered text, one third and two thirds (below 1) for one and two
    words, and exactly 1.0 from three words on; it always lies in
    [[0, 1]], and [volatility_hint] returns on every text. *)
Theorem volatility_hint_saturates (text : pystr) :
  let vol := matches VOL_WORDS (lower text) in
  exists v : float,
    volatility_hint text = Ok v /\
    ((0.0 <= v)%f = true /\ (v <= 1.0)%f = true) /\
    (vol = 0 -> v = 0.0%f) /\
    (vol < 3 -> v = (float_of_int vol / 3.0)%f /\ (v < 1.0)%f = true) /\
    (3 <= vol -> v = 1.0%f).
Proof.
  cbv zeta. rewrite volatility_hint_count.
  pose proof (matches_nonneg VOL_WORDS (lower text)) as H0.
  pose proof (matches_le_size VOL_WORDS (lower text)) as H8.
  change (size VOL_WORDS) with 8%nat in H8.
  pose proof (volatility_shape (Z.to_nat (matches VOL_WORDS (lower text)))) as Hb.
  rewrite (Z2Nat.id _ H0) in Hb. specialize (Hb ltac:(lia)).
  unfold volatility_shape_b in Hb.
  destruct (volatility_of_count _) as [v|]; [|discriminate].
  exists v. split; [reflexivity|].
  apply andb_prop in Hb as [Hb Hthirds]. apply andb_prop in Hb as [Hb Hsat].
  apply andb_prop in Hb as [Hb Hzero]. apply andb_prop in Hb as [Hlo Hhi].
  split; [split; assumption|].
  split; [|split].
  - intros Hz. rewrite Hz in Hzero. cbn [Z.eqb] in Hzero.
    by apply bool_decide_eq_true_1 in Hzero.
  - intros Hlt. apply Z.ltb_lt in Hlt. rewrite Hlt in Hthirds.
    apply andb_prop in Hthirds as [Heq Hbelow].
    split; [by apply bool_decide_eq_true_1 in Heq|exact Hbelow].
  - intros Hge. apply Z.leb_le in Hge. rewrite Hge in Hsat.
    by apply bool_decide_eq_true_1 in Hsat.
Qed.



End engine_edges.

Lemma inverted_bounds_pin_E_witness :
  let self := evc_engine.__init__ examples.cfg_inverted in
  (clamp_high self < clamp_low self)%f = true /\
  exists self',
    apply_update (H := ascii_lower) self (Perceive examples.hello) = Ok self' /\
    E self' = 1.0%f.
Proof.
  cbv zeta.
  assert (Hinv : (clamp_high (evc_engine.__init__ examples.cfg_inverted)
                  < clamp_low (evc_engine.__init__ examples.cfg_inverted))%f = true)
    by (vm_compute; reflexivity).
  split; [exact Hinv|].
  destruct (inverted_bounds_pin_E (H := ascii_lower) _ (Perceive examples.hello) Hinv)
    as (self' & Hstep & HE & _).
  exists self'. split; [exact Hstep|]. rewrite HE. vm_compute. reflexivity.
Defined.

Lemma phase_of_nan_is_calm_witness :
  is_nan (E (set_E (evc_engine.__init__ ∅) S754_nan)) = true /\
  _phase (set_E (evc_engine.__init__ ∅) S754_nan) = calm.
Proof.
  assert (Hnan : is_nan (E (set_E (evc_engine.__init__ ∅) S754_nan)) = true)
    by reflexivity.
  split; [exact Hnan|].
  exact (phase_of_nan_is_calm _ Hnan).
Defined.

Lemma volatility_hint_saturates_witness :
  3 <= matches VOL_WORDS (ascii_lower (utf8 "ด่วน วิกฤต แรงมาก")) /\
  volatility_hint (H := ascii_lower) (utf8 "ด่วน วิกฤต แรงมาก") = Ok 1.0%f.
Proof.
  assert (H3 : 3 <= matches VOL_WORDS (ascii_lower (utf8 "ด่วน วิกฤต แรงมาก")))
    by (vm_compute; discriminate).
  split; [exact H3|].
  destruct (volatility_hint_saturates (H := ascii_lower) (utf8 "ด่วน วิกฤต แรงมาก"))
    as (v & Hv & _ & _ & _ & Hsat).
  rewrite Hv. f_equal. exact (Hsat H3).
Defined.


(** ** The reflection scorer *)

Section reflect_facts.
Import reflection.

(** The sum of a count and a positive finite float is a positive finite
    float or the positive infinity. *)
Lemma fadd_int_positive_cases (z : Z) (m : positive) (e : Z) :
  0 <= z -> emin prec emax <= e ->
  finite_or_infinite false (float_of_int z + S754_finite false m e)%f.
Proof.
  intros Hz He.
  destruct (float_of_int_cases z Hz) as [->|[(mx & ex & -> & Hex)| ->]].
  - left. eexists _, _. split; [reflexivity|exact He].
  - unfold fadd, SFadd, binary_normalize. cbn [cond_Zopp].
    rewrite <- Pos2Z.inj_add. cbv iota.
    apply binary_round_positive. lia.
  - right. reflexivity.
Qed.

Lemma c01_between (x : float) : between 0.0%f 1.0%f (c01 x).
Proof. apply (clamp_between x 0.0%f 1.0%f). reflexivity. Qed.

(** The shape of the result of [reflect]: the four fields, each the
    clamped value that the code computes for it. *)
Lemma reflect_shape (user_input draft_answer : pystr) :
  exists coherence satisfaction verbosity : float,
    reflect user_input draft_answer =
      Ok (vector_of (c01 coherence)
            (c01 (if existsb (fun w => contains w draft_answer) toxic_words
                  then 1.0%f else 0.0%f))
            (c01 satisfaction) (c01 verbosity)) /\
    satisfaction =
      min 1.0%f
        (float_of_int (Z.of_nat (size ((list_to_set (split user_input) : gset pystr)
                                       ∩ list_to_set (split draft_answer))))
         / (float_of_int (Z.of_nat (size (list_to_set (split user_input) : gset pystr)))
            + 1e-6) + 0.2)%f.
Proof.
  unfold reflect.
  assert (H300 : forall x, truediv x 300.0%f = Ok (x / 300.0)%f) by reflexivity.
  assert (H800 : forall x, truediv x 800.0%f = Ok (x / 800.0)%f) by reflexivity.
  rewrite H300, H800. cbn [mbind result_bind bind].
  unfold truediv at 1.
  change (1e-6)%f with (S754_finite false 4722366482869645 (-72)).
  rewrite fadd_int_positive_nonzero; [|lia|unfold emin, prec, emax; lia].
  eexists _, _, _. split; reflexivity.
Qed.

(** X7. On every pair of texts [reflect] returns a vector with exactly
    the four fields coherence, toxicity, satisfaction and verbosity,
    each within [[0, 1]]; toxicity is 1.0 when one of the banned words
    occurs in the answer and 0.0 otherwise. The reflection update never
    falls back on a default for such a vector. *)
Theorem reflect_in_unit_cube (user_input draft_answer : pystr) :
  exists coh tox sat verb : float,
    reflect user_input draft_answer = Ok (vector_of coh tox sat verb) /\
    between 0.0%f 1.0%f coh /\ between 0.0%f 1.0%f tox /\
    between 0.0%f 1.0%f sat /\ between 0.0%f 1.0%f verb /\
    tox = (if existsb (fun w => contains w draft_answer) toxic_words
           then 1.0%f else 0.0%f) /\
    with_defaults (vector_of coh tox sat verb) = vector_of coh tox sat verb.
Proof.
  destruct (reflect_shape user_input draft_answer)
    as (coh & sat & verb & Hr & _).
  eexists _, _, _, _. split; [exact Hr|].
  split; [apply c01_between|]. split; [apply c01_between|].
  split; [apply c01_between|]. split; [apply c01_between|].
  split.
  - destruct (existsb _ toxic_words); vm_compute; reflexivity.
  - unfold with_defaults.
    destruct (lookup_vector_of (c01 coh)
                (c01 (if existsb (fun w => contains w draft_answer) toxic_words
                      then 1.0%f else 0.0%f)) (c01 sat) (c01 verb))
      as (Hc & Ht & Hs & Hv).
    rewrite Hc, Ht, Hs, Hv. reflexivity.
Qed.

Lemma fdiv_zero_positive (x : float) :
  finite_or_infinite false x -> (0.0 / x)%f = 0.0%f.
Proof. intros [(m & e & -> & _)| ->]; reflexivity. Qed.

(** X8. When no token of the query (its maximal runs without
    whitespace) is a token of the answer, the satisfaction is exactly
    0.2, the flat bonus; this is so for every empty or blank query and
    for every empty or blank answer. *)
Theorem reflect_satisfaction_floor (user_input draft_answer : pystr) :
  (forall w, w ∈ split user_input -> w ∉ split draft_answer) ->
  exists rvec,
    reflect user_input draft_answer = Ok rvec /\
    rvec !! utf8 "satisfaction" = Some 0.2%f.
Proof.
  intros Hdisjoint.
  destruct (reflect_shape user_input draft_answer)
    as (coh & sat & verb & Hr & Hsat).
  eexists. split; [exact Hr|].
  destruct (lookup_vector_of (c01 coh)
              (c01 (if existsb (fun w => contains w draft_answer) toxic_words
                    then 1.0%f else 0.0%f)) (c01 sat) (c01 verb))
    as (_ & _ & Hs & _).
  rewrite Hs. f_equal. rewrite Hsat.
  assert (Hempty : (list_to_set (split user_input) : gset pystr)
                     ∩ list_to_set (split draft_answer) = ∅).
  { apply set_eq. intros w. rewrite elem_of_intersection, !elem_of_list_to_set.
    split; [intros [Hu Hd]; exfalso; by apply (Hdisjoint w)|].
    intros Hw. by apply not_elem_of_empty in Hw. }
  rewrite Hempty, size_empty.
  change (float_of_int (Z.of_nat 0)) with 0.0%f.
  change (1e-6)%f with (S754_finite false 4722366482869645 (-72)).
  rewrite fdiv_zero_positive.
  - vm_compute. reflexivity.
  - apply fadd_int_positive_cases; [lia|unfold emin, prec, emax; lia].
Qed.

(** X9. The reflection of an empty answer is the same for every query:
    coherence 0.0, toxicity 0.0, satisfaction 0.2 and verbosity 0.0. *)
Theorem reflect_empty_answer (user_input : pystr) :
  reflect user_input [] = Ok (vector_of 0.0%f 0.0%f 0.2%f 0.0%f).
Proof.
  unfold reflect.
  assert (H300 : forall x, truediv x 300.0%f = Ok (x / 300.0)%f) by reflexivity.
  assert (H800 : forall x, truediv x 800.0%f = Ok (x / 800.0)%f) by reflexivity.
  rewrite H300, H800. cbn [mbind result_bind bind].
  change (list_to_set (split []) : gset pystr) with (∅ : gset pystr).
  rewrite (right_absorb_L ∅ (∩)), size_empty.
  change (float_of_int (Z.of_nat 0)) with 0.0%f.
  unfold truediv.
  change (1e-6)%f with (S754_finite false 4722366482869645 (-72)).
  rewrite fadd_int_positive_nonzero; [|lia|unfold emin, prec, emax; lia].
  rewrite (fdiv_zero_positive (float_of_int _ + _)%f)
    by (apply fadd_int_positive_cases; [lia|unfold emin, prec, emax; lia]).
  vm_compute. reflexivity.
Qed.

End reflect_facts.

Lemma reflect_satisfaction_floor_witness :
  (forall w, w ∈ split (utf8 "how are you") -> w ∉ split (utf8 "fine thanks")) /\
  exists rvec,
    reflection.reflect (utf8 "how are you") (utf8 "fine thanks") = Ok rvec /\
    rvec !! utf8 "satisfaction" = Some 0.2%f.
Proof.
  assert (Hd : forall w, w ∈ split (utf8 "how are you") -> w ∉ split (utf8 "fine thanks")).
  { intros w Hu Hdr. vm_compute in Hu, Hdr.
    repeat (apply elem_of_cons in Hu as [->|Hu]);
      try (by apply elem_of_nil in Hu);
      repeat (apply elem_of_cons in Hdr as [Hdr|Hdr]; try discriminate Hdr);
      by apply elem_of_nil in Hdr. }
  split; [exact Hd|].
  exact (reflect_satisfaction_floor _ _ Hd).
Defined.

(** ** The chat form over a session *)

Section session_facts.
Import web reflection.
Context `{StrLower}.

(** The apology does not carry the marker, so no answer that is kept
    does. *)
Lemma answer_of_unmarked (raw_answer : pystr) :
  startswith (answer_of raw_answer) error_marker = false.
Proof.
  unfold answer_of.
  destruct (startswith raw_answer error_marker) eqn:Hm; [|exact Hm].
  vm_compute. reflexivity.
Qed.

(** What a handled run does, for every reply of the backend. *)
Lemma on_submit_handled (evc : EVCEngine) (ss : session_state)
    (user_input raw_answer : pystr) :
  processing ss = false ->
  strip_truthy user_input = true ->
  exists (info1 : info) (evc1 : EVCEngine) (rvec : gmap pystr float),
    update_from_text evc user_input = Ok (info1, evc1) /\
    reflect user_input (answer_of raw_answer) = Ok rvec /\
    on_submit evc ss true user_input raw_answer =
      (let evc2 := snd (update_from_reflection evc1 rvec) in
       (evc2,
        {| chat_log := chat_log ss ++ [(user_input, answer_of raw_answer)];
           E_vals := E_vals ss ++ [E evc2];
           K_vals := K_vals ss ++ [K evc2];
           phase_vals := phase_vals ss ++ [_phase evc2];
           last_dE := info_dE info1;
           processing := false |})).
Proof.
  intros Hidle Htext.
  destruct (update_from_text_returns evc user_input)
    as (sent & vol & _ & _ & Hupd).
  destruct (reflect_returns user_input (answer_of raw_answer)) as [rvec Hrvec].
  eexists _, _, rvec. split; [exact Hupd|]. split; [exact Hrvec|].
  unfold on_submit. rewrite Hidle, Htext, Hupd.
  unfold rvec_of. rewrite Hrvec. reflexivity.
Qed.

(** The state of the session after one run of the script. *)
Lemma script_run_cases (cfg : gmap pystr (gmap pystr float))
    (ss : session_state) (ev : submission) :
  processing ss = false ->
  (handled ev = false /\ script_run cfg ss ev = ss) \/
  (handled ev = true /\
   exists (evc2 : EVCEngine) (dE : float),
     (exists evc1 rvec,
        apply_update (evc_engine.__init__ cfg) (Perceive (user_input ev)) = Ok evc1 /\
        reflect (user_input ev) (answer_of (raw_answer ev)) = Ok rvec /\
        evc2 = snd (update_from_reflection evc1 rvec)) /\
     script_run cfg ss ev =
       {| chat_log := chat_log ss ++ [(user_input ev, answer_of (raw_answer ev))];
          E_vals := E_vals ss ++ [E evc2];
          K_vals := K_vals ss ++ [K evc2];
          phase_vals := phase_vals ss ++ [_phase evc2];
          last_dE := dE;
          processing := false |}).
Proof.
  intros Hidle. unfold script_run, handled.
  destruct (submit ev) eqn:Hs; [|left; split; reflexivity].
  destruct (strip_truthy (user_input ev)) eqn:Ht.
  - right. split; [reflexivity|].
    destruct (on_submit_handled (evc_engine.__init__ cfg) ss
                (user_input ev) (raw_answer ev) Hidle Ht)
      as (info1 & evc1 & rvec & Hupd & Hrvec & Hrun).
    rewrite Hrun. cbv zeta. cbn [snd].
    eexists _, _. split; [|reflexivity].
    exists evc1, rvec. unfold apply_update. rewrite Hupd.
    split; [reflexivity|]. split; [exact Hrvec|reflexivity].
  - left. split; [reflexivity|]. unfold on_submit. rewrite Ht. reflexivity.
Qed.

(** X10. Over every sequence of runs of the script from a fresh
    session: the four session lists stay aligned, one entry each per
    handled run (a run whose button is pressed on a text that is not
    blank); the log holds the texts of the handled runs in order, each
    with the answer kept for it; and the handler is idle again after
    every run, whatever the backend replied. *)
Theorem session_lists_aligned (cfg : gmap pystr (gmap pystr float))
    (events : list submission) :
  let ss := run_session cfg events in
  chat_log ss =
    (fun ev => (user_input ev, answer_of (raw_answer ev))) <$> List.filter handled events /\
  length (E_vals ss) = length (chat_log ss) /\
  length (K_vals ss) = length (chat_log ss) /\
  length (phase_vals ss) = length (chat_log ss) /\
  processing ss = false.
Proof.
  cbv zeta. unfold run_session.
  assert (Hgen : forall ss0,
    processing ss0 = false ->
    let ss := fold_left (script_run cfg) events ss0 in
    chat_log ss = chat_log ss0 ++
      ((fun ev => (user_input ev, answer_of (raw_answer ev))) <$> List.filter handled events) /\
    length (E_vals ss) = (length (E_vals ss0) + length (List.filter handled events))%nat /\
    length (K_vals ss) = (length (K_vals ss0) + length (List.filter handled events))%nat /\
    length (phase_vals ss) = (length (phase_vals ss0) + length (List.filter handled events))%nat /\
    processing ss = false).
  { induction events as [|ev events IH]; intros ss0 Hidle; cbn [fold_left List.filter].
    - cbn. rewrite app_nil_r, !Nat.add_0_r. repeat split. exact Hidle.
    - destruct (script_run_cases cfg ss0 ev Hidle)
        as [[Hno Hrun]|(Hyes & evc2 & dE & _ & Hrun)].
      + rewrite Hno, Hrun. by apply IH.
      + rewrite Hyes, Hrun.
        destruct (IH _ (eq_refl : processing
          {| chat_log := chat_log ss0 ++ [(user_input ev, answer_of (raw_answer ev))];
             E_vals := E_vals ss0 ++ [E evc2]; K_vals := K_vals ss0 ++ [K evc2];
             phase_vals := phase_vals ss0 ++ [_phase evc2];
             last_dE := dE; processing := false |} = false))
          as (Hlog & HE & HK & Hph & Hp).
        cbv zeta in *. cbn [chat_log E_vals K_vals phase_vals] in *.
        rewrite Hlog, HE, HK, Hph, !length_app. cbn [length fmap list_fmap].
        rewrite <- app_assoc. repeat split; try lia. exact Hp. }
  destruct (Hgen initial_session eq_refl) as (Hlog & HE & HK & Hph & Hp).
  cbv zeta in *. cbn [chat_log E_vals K_vals phase_vals initial_session length app] in *.
  rewrite Hlog, HE, HK, Hph, length_fmap. repeat split. exact Hp.
Qed.

(** X11. Every value that a session records is within bounds: each
    entry of [K_vals] lies in [[0.25, 0.75]], each entry of [E_vals]
    within the clamp bounds of the configuration when these are ordered,
    and no answer of the log starts with the marker of a failed call. *)
Theorem session_values_in_bounds (cfg : gmap pystr (gmap pystr float))
    (events : list submission) :
  let ss := run_session cfg events in
  let evc0 := evc_engine.__init__ cfg in
  Forall (between K_lo K_hi) (K_vals ss) /\
  Forall (fun qa => startswith qa.2 error_marker = false) (chat_log ss) /\
  ((clamp_low evc0 <= clamp_high evc0)%f = true ->
   Forall (between (clamp_low evc0) (clamp_high evc0)) (E_vals ss)).
Proof.
  cbv zeta. unfold run_session.
  assert (Hgen : forall ss0,
    processing ss0 = false ->
    Forall (between K_lo K_hi) (K_vals ss0) ->
    Forall (fun qa => startswith qa.2 error_marker = false) (chat_log ss0) ->
    let ss := fold_left (script_run cfg) events ss0 in
    Forall (between K_lo K_hi) (K_vals ss) /\
    Forall (fun qa => startswith qa.2 error_marker = false) (chat_log ss) /\
    ((clamp_low (evc_engine.__init__ cfg) <= clamp_high (evc_engine.__init__ cfg))%f = true ->
     Forall (between (clamp_low (evc_engine.__init__ cfg))
                     (clamp_high (evc_engine.__init__ cfg))) (E_vals ss0) ->
     Forall (between (clamp_low (evc_engine.__init__ cfg))
                     (clamp_high (evc_engine.__init__ cfg))) (E_vals ss))).
  { induction events as [|ev events IH]; intros ss0 Hidle HK Hlog; cbn [fold_left].
    - cbv zeta. split; [exact HK|]. split; [exact Hlog|]. intros _ HE. exact HE.
    - destruct (script_run_cases cfg ss0 ev Hidle)
        as [[Hno Hrun]|(Hyes & evc2 & dE & (evc1 & rvec & Hstep & _ & Hevc2) & Hrun)].
      + rewrite Hrun. by apply IH.
      + rewrite Hrun.
        destruct (IH {| chat_log := chat_log ss0 ++ [(user_input ev, answer_of (raw_answer ev))];
             E_vals := E_vals ss0 ++ [E evc2]; K_vals := K_vals ss0 ++ [K evc2];
             phase_vals := phase_vals ss0 ++ [_phase evc2];
             last_dE := dE; processing := false |}) as (HK' & Hlog' & HE').
        * reflexivity.
        * cbn [K_vals]. apply Forall_app. split; [exact HK|].
          constructor; [|constructor]. subst evc2. apply update_from_reflection_K.
        * cbn [chat_log]. apply Forall_app. split; [exact Hlog|].
          constructor; [|constructor]. cbn [snd]. apply answer_of_unmarked.
        * cbv zeta in *. split; [exact HK'|]. split; [exact Hlog'|].
          intros Hle HE. apply (HE' Hle). cbn [E_vals].
          apply Forall_app. split; [exact HE|].
          constructor; [|constructor].
          destruct (apply_update_E _ (Perceive (user_input ev)) Hle)
            as (evc1' & Hstep' & Hlo & Hhi & _).
          rewrite Hstep in Hstep'. injection Hstep' as <-.
          subst evc2. rewrite <- Hlo, <- Hhi.
          unfold update_from_reflection. cbn [snd E set_E set_K set_stability].
          apply clamp_between. rewrite Hlo, Hhi. exact Hle. }
  destruct (Hgen initial_session eq_refl) as (HK & Hlog & HE).
  - constructor.
  - constructor.
  - cbv zeta in *. split; [exact HK|]. split; [exact Hlog|].
    intros Hle. apply (HE Hle). constructor.
Qed.

End session_facts.

(** ** The conversation store, its search and its summary *)

Section memory_facts.
Import enhanced_dual_ai.
Context `{StrLower}.

Lemma slice_from_last {A} (l : list A) (k : nat) :
  (0 < k)%nat -> slice_from l (- Z.of_nat k) = drop (length l - k) l.
Proof.
  intros Hk. unfold slice_from, len.
  destruct (Z.ltb_spec (- Z.of_nat k) 0) as [_|?]; [|lia].
  f_equal. lia.
Qed.

Lemma filter_elem_of {A} (f : A -> bool) (l : list A) (x : A) :
  x ∈ List.filter f l <-> x ∈ l /\ f x = true.
Proof. rewrite !list_elem_of_In. apply filter_In. Qed.

Lemma filter_sublist {A} (f : A -> bool) (l : list A) :
  List.filter f l `sublist_of` l.
Proof.
  induction l as [|x l IH]; cbn [List.filter]; [constructor|].
  destruct (f x); by constructor.
Qed.

(** A fresh store of capacity [N] after the turns [ts]. *)
Lemma fresh_store_after (N : Z) (ts : list turn) :
  0 <= N ->
  exists m0,
    enhanced_dual_ai.__init__ N = Ok m0 /\
    full_history (fold_left add_turn ts m0) = ts /\
    items (turns (fold_left add_turn ts m0)) = drop (length ts - Z.to_nat N) ts /\
    maxlen (turns (fold_left add_turn ts m0)) = N.
Proof.
  intros HN. unfold enhanced_dual_ai.__init__, deque_new.
  destruct (Z.ltb_spec N 0) as [?|_]; [lia|].
  eexists. split; [reflexivity|].
  set (m0 := {| turns := {| maxlen := N; items := [] |}; full_history := [];
                summary := []; key_points := [] |}).
  destruct (add_turns_window_archive (Z.to_nat N) ts m0) as (Hmax & Hhist & Hwin).
  - cbn. lia.
  - reflexivity.
  - cbv zeta in *. cbn [full_history m0 app] in Hhist.
    rewrite Hwin, Hhist, Hmax. repeat split. lia.
Qed.

(** X12. After any number of turns appended to a fresh store of
    capacity [N], the archive holds all of them in order and the window
    holds the last [min(N, n)] of them: it is a suffix of the archive
    and never longer than [N]. A negative capacity is refused when the
    store is built. *)
Theorem window_is_suffix_of_archive (N : Z) (ts : list turn) :
  (N < 0 -> enhanced_dual_ai.__init__ N = Raise ValueError) /\
  (0 <= N ->
   exists m0,
     enhanced_dual_ai.__init__ N = Ok m0 /\
     let m := fold_left add_turn ts m0 in
     full_history m = ts /\
     items (turns m) = drop (length ts - Z.to_nat N) ts /\
     len (items (turns m)) = Z.min N (len ts) /\
     items (turns m) `suffix_of` full_history m).
Proof.
  split.
  - intros Hneg. unfold enhanced_dual_ai.__init__, deque_new.
    destruct (Z.ltb_spec N 0) as [_|?]; [reflexivity|lia].
  - intros HN. destruct (fresh_store_after N ts HN) as (m0 & Hinit & Hhist & Hwin & _).
    exists m0. split; [exact Hinit|]. cbv zeta.
    split; [exact Hhist|]. split; [exact Hwin|].
    rewrite Hwin, Hhist. split; [|apply suffix_drop].
    unfold len. rewrite length_drop. lia.
Qed.

(** X13. [search_related] reads the archive, not the window: after
    any turns appended to a fresh store of any capacity it returns the
    turns whose message or response contains the keyword (both
    lowered), in the order of the archive, the last five of them when
    there are more; with a keyword that lowers to the empty string every
    turn matches. *)
Theorem search_related_last_five (N : Z) (ts : list turn) (keyword : pystr) :
  0 <= N ->
  exists m0,
    enhanced_dual_ai.__init__ N = Ok m0 /\
    let found := search_related (fold_left add_turn ts m0) keyword in
    let matching :=
      List.filter
        (fun t => contains (lower keyword) (lower (message t))
                  || contains (lower keyword) (lower (response t))) ts in
    found = drop (length matching - 5) matching /\
    length found = Nat.min 5 (length matching) /\
    found `sublist_of` ts /\
    (lower keyword = [] -> found = drop (length ts - 5) ts).
Proof.
  intros HN. destruct (fresh_store_after N ts HN) as (m0 & Hinit & Hhist & _).
  exists m0. split; [exact Hinit|]. cbv zeta.
  unfold search_related. rewrite Hhist.
  rewrite (slice_from_last _ 5) by lia.
  split; [reflexivity|]. split; [rewrite length_drop; lia|].
  split.
  - etrans; [apply sublist_drop|]. apply filter_sublist.
  - intros Hempty. rewrite Hempty.
    assert (Hall : List.filter
              (fun t => contains [] (lower (message t)) || contains [] (lower (response t)))
              ts = ts).
    { clear. induction ts as [|t ts IH]; [reflexivity|]. cbn [List.filter].
      assert (Hc : forall s, contains [] s = true) by (intros []; reflexivity).
      rewrite Hc. cbn [orb]. by rewrite IH. }
    rewrite Hall. reflexivity.
Qed.

(** X14. [get_summary_context] is empty up to fifty turns in the
    archive and starts from the fifty-first; it then names the number of
    turns and lists at most three topics, each the first hundred
    characters at most of a message among the last twenty turns that
    holds one of the two topic words. *)
Theorem summary_from_fifty_first_turn (self : ConversationMemory) :
  (get_summary_context self = [] <-> len (full_history self) <= 50) /\
  (50 < len (full_history self) ->
   exists topics : list pystr,
     get_summary_context self =
       summary_header
       ++ (utf8 "Total turns: " ++ str_of_int (len (full_history self)) ++ [10%N])
       ++ (utf8 "Recent topics: " ++ join (utf8 ", ") topics ++ [10%N])
       ++ (utf8 "---" ++ [10%N]) /\
     (length topics <= 3)%nat /\
     Forall (fun topic =>
       (length topic <= 100)%nat /\
       exists t, t ∈ drop (length (full_history self) - 20) (full_history self) /\
                 is_topic t = true /\ topic = take 100 (message t)) topics).
Proof.
  unfold get_summary_context. split.
  - destruct (Z.gtb_spec (len (full_history self)) 50) as [Hgt|Hle].
    + split; [|lia]. intros Heq. exfalso.
      assert (Hh : exists c r, summary_header = c :: r)
        by (eexists _, _; vm_compute; reflexivity).
      destruct Hh as (c & r & Hh). rewrite Hh in Heq.
      cbn [app] in Heq. discriminate Heq.
    + split; [intros _; exact Hle|reflexivity].
  - intros Hgt. destruct (Z.gtb_spec (len (full_history self)) 50) as [_|?]; [|lia].
    eexists. split; [reflexivity|].
    unfold slice_to. cbn [Z.ltb Z.compare Z.to_nat Pos.to_nat Pos.iter_op Nat.add].
    split; [rewrite length_take; lia|].
    apply Forall_forall. intros topic Hin.
    apply elem_of_take in Hin as (i & Hi & _).
    apply list_elem_of_lookup_2 in Hi.
    apply list_elem_of_fmap in Hi as (t & -> & Ht).
    apply filter_elem_of in Ht as [Ht Htopic].
    rewrite (slice_from_last _ 20) in Ht by lia.
    split; [rewrite length_take; lia|].
    exists t. split; [exact Ht|]. split; [exact Htopic|reflexivity].
Qed.

End memory_facts.

Lemma session_values_in_bounds_witness :
  let evc0 := evc_engine.__init__ examples.cfg_narrow in
  (clamp_low evc0 <= clamp_high evc0)%f = true /\
  Forall (between (clamp_low evc0) (clamp_high evc0))
    (web.E_vals (web.run_session (H := ascii_lower) examples.cfg_narrow examples.submissions)).
Proof.
  split; [vm_compute; reflexivity|].
  destruct (session_values_in_bounds (H := ascii_lower)
              examples.cfg_narrow examples.submissions) as (_ & _ & HE).
  apply HE. vm_compute. reflexivity.
Defined.

Lemma window_is_suffix_of_archive_witness :
  enhanced_dual_ai.__init__ (-1) = Raise ValueError /\
  exists m0,
    enhanced_dual_ai.__init__ 2 = Ok m0 /\
    enhanced_dual_ai.items
      (enhanced_dual_ai.turns
         (fold_left enhanced_dual_ai.add_turn
            [examples.a_turn 1; examples.a_turn 2; examples.a_turn 3] m0)) =
      [examples.a_turn 2; examples.a_turn 3].
Proof.
  split.
  - apply (window_is_suffix_of_archive (-1) []). lia.
  - destruct (window_is_suffix_of_archive 2
                [examples.a_turn 1; examples.a_turn 2; examples.a_turn 3])
      as [_ Hok].
    destruct Hok as (m0 & Hinit & _ & Hwin & _); [lia|].
    exists m0. split; [exact Hinit|]. exact Hwin.
Defined.

Lemma search_related_last_five_witness :
  0 <= 2 /\ lower (StrLower := ascii_lower) [] = [] /\
  exists m0,
    enhanced_dual_ai.__init__ 2 = Ok m0 /\
    enhanced_dual_ai.search_related (H := ascii_lower)
      (fold_left enhanced_dual_ai.add_turn examples.fifty_one_turns m0) [] =
    drop 46 examples.fifty_one_turns.
Proof.
  split; [lia|]. split; [reflexivity|].
  destruct (search_related_last_five (H := ascii_lower) 2 examples.fifty_one_turns [])
    as (m0 & Hinit & _ & _ & _ & Hall); [lia|].
  exists m0. split; [exact Hinit|]. apply Hall. reflexivity.
Defined.

Lemma summary_from_fifty_first_turn_witness :
  50 < len (enhanced_dual_ai.full_history examples.long_store) /\
  exists topics : list pystr,
    enhanced_dual_ai.get_summary_context examples.long_store =
      enhanced_dual_ai.summary_header
      ++ (utf8 "Total turns: " ++ utf8 "51" ++ [10%N])
      ++ (utf8 "Recent topics: " ++ join (utf8 ", ") topics ++ [10%N])
      ++ (utf8 "---" ++ [10%N]) /\
    (length topics <= 3)%nat.
Proof.
  split; [vm_compute; reflexivity|].
  destruct (summary_from_fifty_first_turn examples.long_store) as [_ Hsum].
  destruct Hsum as (topics & Heq & Hlen & _); [vm_compute; reflexivity|].
  exists topics. split; [exact Heq|exact Hlen].
Defined.

(** ** A turn of a player of the dual conversation *)

Section respond_facts.
Import enhanced_dual_ai reflection.
Context `{StrLower}.

(** What the dictionary returned by [update_from_reflection] holds is
    read from the engine after the update. *)
Lemma update_from_reflection_info (self : EVCEngine) (vector : gmap pystr float) :
  let r := update_from_reflection self vector in
  info_E r.1 = E r.2 /\ info_K r.1 = Some (K r.2) /\
  info_phase r.1 = _phase r.2 /\ info_source r.1 = reflection.
Proof. repeat split. Qed.

(** X15. [respond] returns for every prompt and every reply of the
    backend: it never reaches its [raise]. It appends exactly one turn
    to the archive of the shared memory, under the name of the player,
    with the prompt and with the response it returns; the reflection
    recorded is the one of [reflect] on that response; the state
    recorded after the turn is the state of the engine, whose [K] lies
    in [[0.25, 0.75]]. When the reply carries the marker of a failed
    call, the response kept carries the marker as well. *)
Theorem respond_returns_and_logs (self : EnhancedAIPlayer) (memory : ConversationMemory)
    (prompt mode raw_response now_turn now_data : pystr) :
  let kept :=
    if startswith raw_response error_marker
    then connection_error (name self) else raw_response in
  exists (td : turn_data) (self' : EnhancedAIPlayer) (memory' : ConversationMemory),
    respond self memory prompt mode raw_response now_turn now_data =
      Returned (kept, td, self', memory') /\
    full_history memory' =
      full_history memory ++
        [ {| timestamp := now_turn; speaker := name self; message := prompt;
             response := kept; evc_state := td_evc_after td |} ] /\
    reflect prompt kept = Ok (td_reflection td) /\
    name self' = name self /\
    info_E (td_evc_after td) = E (evc self') /\
    info_K (td_evc_after td) = Some (K (evc self')) /\
    between K_lo K_hi (K (evc self')) /\
    startswith (connection_error (name self)) error_marker = true.
Proof.
  cbv zeta.
  set (kept := if startswith raw_response error_marker
               then connection_error (name self) else raw_response).
  destruct (update_from_text_returns (evc self) prompt)
    as (sent & vol & _ & _ & Hupd). cbv zeta in Hupd.
  destruct (reflect_returns prompt kept) as [rvec Hrvec].
  unfold respond. rewrite Hupd. fold kept. rewrite Hrvec.
  set (evc1 := set_E _ _).
  pose proof (update_from_reflection_info evc1 rvec) as Hinfo.
  pose proof (update_from_reflection_K evc1 rvec) as HK.
  cbv zeta in Hinfo.
  destruct (update_from_reflection evc1 rvec) as [info2 evc2].
  cbn [fst snd] in Hinfo, HK. destruct Hinfo as (HE & HKi & _ & _).
  eexists _, _, _. split; [reflexivity|].
  cbn [full_history add_turn td_evc_after td_reflection name evc].
  split; [reflexivity|]. split; [reflexivity|]. split; [reflexivity|].
  split; [exact HE|]. split; [exact HKi|]. split; [exact HK|].
  unfold connection_error. vm_compute. reflexivity.
Qed.

End respond_facts.

(** ** An episode of self-play *)

Section episode_loop.
Import selfplay_trainer reflection.
Context `{StrLower}.
Variable generate : Z -> pystr -> pystr -> pystr.
Variable tone_map : gmap pystr pystr.
Variables lo hi : float.

(** One turn of the loop of [run_episode]. *)
Lemma turn_spec (st : loop_state) (t : Z) :
  loop_invariant lo hi st ->
  exists st1 e,
    turn generate tone_map st t = Ok st1 /\
    hist st1 = hist st ++ [e] /\
    who st1 = 1 - who st /\
    msg st1 = h_reply e /\
    loop_invariant lo hi st1 /\
    entry_of generate lo hi (who st) (msg st) t e /\
    computed_from (if who st =? 0 then a st else b st) e /\
    (if who st =? 0 then b st1 = b st else a st1 = a st).
Proof.
  intros (Hwho & (Halo & Hahi) & (Hblo & Hbhi)).
  unfold turn.
  set (eng := if who st =? 0 then a st else b st).
  assert (Heng : clamp_low eng = lo /\ clamp_high eng = hi).
  { subst eng. destruct (who st =? 0); by split. }
  destruct Heng as [Hlo Hhi].
  destruct (update_from_text_returns eng (msg st))
    as (sent & vol & _ & _ & Hupd). cbv zeta in Hupd.
  rewrite Hupd.
  set (eng1 := set_E _ _).
  set (reply := generate t (msg st) (tone_from_phase eng1 tone_map)).
  destruct (reflect_returns (msg st) reply) as [rvec Hrvec].
  rewrite Hrvec. cbn [mbind result_bind bind].
  pose proof (update_from_reflection_info eng1 rvec) as Hinfo.
  pose proof (update_from_reflection_K eng1 rvec) as HK.
  assert (HE : clamp_low (update_from_reflection eng1 rvec).2 = lo /\
               clamp_high (update_from_reflection eng1 rvec).2 = hi /\
               ((lo <= hi)%f = true ->
                between lo hi (E (update_from_reflection eng1 rvec).2))).
  { unfold update_from_reflection.
    cbn [snd E clamp_low clamp_high set_E set_K set_stability eng1].
    rewrite Hlo, Hhi. repeat split; try reflexivity; by apply clamp_between. }
  cbv zeta in Hinfo.
  destruct (update_from_reflection eng1 rvec) as [info2 eng2] eqn:Hu.
  cbn [fst snd] in Hinfo, HK, HE.
  destruct Hinfo as (HiE & HiK & _ & Hsrc). destruct HE as (Hlo2 & Hhi2 & HE).
  eexists _, _. split; [reflexivity|].
  cbn [hist who msg a b h_reply].
  split; [reflexivity|]. split; [reflexivity|]. split; [reflexivity|].
  split.
  - unfold loop_invariant. cbn [who a b].
    split; [lia|]. destruct (who st =? 0); repeat split; assumption.
  - split; [|split].
    + unfold entry_of.
      cbn [h_t h_speaker h_prompt h_reply h_evc h_reflection].
      split; [reflexivity|]. split; [reflexivity|]. split; [reflexivity|].
      split; [eexists; reflexivity|]. split; [exact Hrvec|]. split; [exact Hsrc|].
      split; [exists (K eng2); split; [exact HiK|exact HK]|].
      rewrite HiE. exact HE.
    + exists eng1. unfold apply_update.
      cbn [h_prompt h_evc h_reflection]. fold eng. rewrite Hupd.
      split; [reflexivity|]. by rewrite Hu.
    + destruct (who st =? 0); reflexivity.
Qed.

(** The loop over the turns [k, k+1, ..., k+n-1]. *)
Lemma loop_spec (n k : nat) (st : loop_state) :
  loop_invariant lo hi st ->
  exists st' new,
    loop generate tone_map (Z.of_nat <$> seq k n) st = Ok st' /\
    hist st' = hist st ++ new /\
    length new = n /\
    forall (j : nat) (e : entry), new !! j = Some e ->
      entry_of generate lo hi
        ((who st + Z.of_nat j) mod 2)
        (match j with
         | O => msg st
         | S j' => default [] (h_reply <$> new !! j')
         end)
        (Z.of_nat (k + j)) e /\
      ((j < 2)%nat ->
       computed_from (if (who st + Z.of_nat j) mod 2 =? 0 then a st else b st) e).
Proof.
  revert k st. induction n as [|n IH]; intros k st Hinv.
  - exists st, []. split; [reflexivity|]. split; [by rewrite app_nil_r|].
    split; [reflexivity|]. intros j e Hj. by destruct j.
  - cbn [seq fmap list_fmap loop].
    destruct (turn_spec st (Z.of_nat k) Hinv)
      as (st1 & e0 & Hturn & Hhist & Hwho & Hmsg & Hinv1 & He0 & Hc0 & Hother).
    rewrite Hturn. cbn [mbind result_bind bind].
    destruct (IH (S k) st1 Hinv1) as (st' & new & Hloop & Hhist' & Hlen & Hnew).
    exists st', (e0 :: new). split; [exact Hloop|].
    split; [rewrite Hhist', Hhist, <- app_assoc; reflexivity|].
    split; [cbn; by rewrite Hlen|].
    destruct Hinv as (Hw & _).
    intros [|j] e Hj.
    + cbn in Hj. injection Hj as <-.
      rewrite Nat.add_0_r.
      replace ((who st + Z.of_nat 0) mod 2) with (who st)
        by (destruct Hw as [-> | ->]; reflexivity).
      split; [exact He0|]. intros _. exact Hc0.
    + cbn [lookup list_lookup] in Hj. destruct (Hnew j e Hj) as [Hnew' Hc]. clear Hnew.
      replace (Z.of_nat (k + S j)) with (Z.of_nat (S k + j)) by lia.
      replace ((who st + Z.of_nat (S j)) mod 2)
        with ((who st1 + Z.of_nat j) mod 2).
      2:{ rewrite Hwho.
          replace (who st + Z.of_nat (S j)) with (1 - who st + Z.of_nat j + 2 * who st) by lia.
          destruct Hw as [-> | ->].
          - by rewrite Z.add_0_r.
          - replace (2 * 1) with (1 * 2) by lia. by rewrite Z.mod_add. }
      split.
      * destruct j as [|j'].
        -- cbn [lookup list_lookup fmap option_fmap option_map default].
           rewrite <- Hmsg. exact Hnew'.
        -- exact Hnew'.
      * intros Hj2. assert (j = 0%nat) as -> by lia.
        specialize (Hc ltac:(lia)). rewrite Hwho in Hc.
        rewrite Hwho.
        destruct Hw as [Hw | Hw]; rewrite Hw in Hc, Hother |- *.
        -- change (computed_from (b st1) e) in Hc.
           change (b st1 = b st) in Hother.
           change (computed_from (b st) e).
           rewrite <- Hother. exact Hc.
        -- change (computed_from (a st1) e) in Hc.
           change (a st1 = a st) in Hother.
           change (computed_from (a st) e).
           rewrite <- Hother. exact Hc.
Qed.

End episode_loop.

(** Parity over [Z] and over [nat]. *)
Lemma even_of_nat (i : nat) : (Z.of_nat i mod 2 =? 0) = Nat.even i.
Proof.
  assert (Hboth : (Z.of_nat i mod 2 =? 0) = Nat.even i /\
                  (Z.of_nat (S i) mod 2 =? 0) = Nat.even (S i)).
  { induction i as [|i [IH0 IH1]]; [split; reflexivity|].
    split; [exact IH1|].
    replace (Z.of_nat (S (S i))) with (Z.of_nat i + 1 * 2) by lia.
    rewrite Z.mod_add by lia. exact IH0. }
  apply Hboth.
Qed.

Section episode_facts.
Import selfplay_trainer reflection.
Context `{StrLower}.
Variable generate : Z -> pystr -> pystr -> pystr.
Variable tone_map : gmap pystr pystr.

(** X16. [run_episode] returns for every configuration, topic, number
    of turns and backend. Its history has [max_turns] entries (none when
    [max_turns] is not positive), numbered from 0; the speakers
    alternate, ["A"] first; the first prompt is the opening line on the
    topic and every later prompt is the reply of the entry before; each
    reply is what the backend returned for that prompt, and each
    reflection is [reflect] of prompt and reply. The two engines are
    apart: the first entry of each speaker is computed from the state
    that the configuration gives. *)
Theorem run_episode_history (cfg : gmap pystr (gmap pystr float))
    (topic : pystr) (max_turns : Z) :
  exists h,
    run_episode generate tone_map cfg topic max_turns = Ok (topic, h) /\
    length h = Z.to_nat max_turns /\
    forall (i : nat) (e : entry), h !! i = Some e ->
      h_t e = Z.of_nat i /\
      h_speaker e = (if Nat.even i then utf8 "A" else utf8 "B") /\
      h_prompt e =
        match i with
        | O => opening topic
        | S j => default [] (h_reply <$> h !! j)
        end /\
      (exists tone, h_reply e = generate (Z.of_nat i) (h_prompt e) tone) /\
      reflect (h_prompt e) (h_reply e) = Ok (h_reflection e) /\
      ((i < 2)%nat -> computed_from (evc_engine.__init__ cfg) e).
Proof.
  unfold run_episode, range. cbv zeta.
  set (st0 := {| a := evc_engine.__init__ cfg; b := evc_engine.__init__ cfg;
                 hist := []; who := 0; msg := opening topic |}).
  destruct (loop_spec generate tone_map _ _ (Z.to_nat max_turns) 0 st0
              ltac:(repeat split; by left))
    as (st' & new & Hloop & Hhist & Hlen & Hnew).
  rewrite Hloop. cbn [mbind result_bind bind mret result_ret].
  cbn [hist st0 app] in Hhist. rewrite Hhist.
  exists new. split; [reflexivity|]. split; [exact Hlen|].
  intros i e Hi. destruct (Hnew i e Hi) as [He Hc]. clear Hnew.
  cbn [who msg a b st0 Nat.add] in He, Hc.
  destruct He as (Ht & Hsp & Hpr & Hrep & Hrefl & _).
  rewrite Hpr. split; [exact Ht|]. split.
  { rewrite Hsp, Z.add_0_l, even_of_nat. reflexivity. }
  split; [reflexivity|]. split; [exact Hrep|]. split; [exact Hrefl|].
  intros Hi2. specialize (Hc Hi2). by destruct (_ =? 0).
Qed.

(** X17. Every entry of the history of [run_episode] records the
    dictionary of a reflection, with a [K] in [[0.25, 0.75]], and, when
    the clamp bounds of the configuration are ordered, an [E] within
    them. *)
Theorem run_episode_values_in_bounds (cfg : gmap pystr (gmap pystr float))
    (topic : pystr) (max_turns : Z) :
  let evc0 := evc_engine.__init__ cfg in
  exists h,
    run_episode generate tone_map cfg topic max_turns = Ok (topic, h) /\
    Forall (fun e => info_source (h_evc e) = reflection /\
                     exists k, info_K (h_evc e) = Some k /\ between K_lo K_hi k) h /\
    ((clamp_low evc0 <= clamp_high evc0)%f = true ->
     Forall (fun e => between (clamp_low evc0) (clamp_high evc0) (info_E (h_evc e))) h).
Proof.
  unfold run_episode, range. cbv zeta.
  set (st0 := {| a := evc_engine.__init__ cfg; b := evc_engine.__init__ cfg;
                 hist := []; who := 0; msg := opening topic |}).
  destruct (loop_spec generate tone_map _ _ (Z.to_nat max_turns) 0 st0
              ltac:(repeat split; by left))
    as (st' & new & Hloop & Hhist & Hlen & Hnew).
  rewrite Hloop. cbn [mbind result_bind bind mret result_ret].
  cbn [hist st0 app] in Hhist. rewrite Hhist.
  exists new. split; [reflexivity|].
  cbn [a st0] in Hnew.
  split; [|intros Hle]; apply Forall_forall; intros e He;
    apply list_elem_of_lookup_1 in He as [i Hi];
    destruct (Hnew i e Hi) as [(_ & _ & _ & _ & _ & Hsrc & HK & HE) _].
  - split; [exact Hsrc|exact HK].
  - exact (HE Hle).
Qed.


End episode_facts.

(** ** The backend: the base URL and the offline fallback *)

Section backend_facts.
Import core_llm.
Context `{StrLower}.

(** [lstrip] on leading white space, and on a text that starts with
    none. *)
Lemma lstrip_spaces (ws s : pystr) :
  forallb isspace ws = true -> lstrip (ws ++ s) = lstrip s.
Proof.
  induction ws as [|c ws IH]; intros Hws; [reflexivity|].
  cbn [forallb] in Hws. apply andb_true_iff in Hws as [Hc Hws].
  cbn [app lstrip]. rewrite Hc. by apply IH.
Qed.

Lemma lstrip_head (c : N) (s : pystr) :
  isspace c = false -> lstrip (c :: s) = c :: s.
Proof. intros Hc. cbn [lstrip]. by rewrite Hc. Qed.

Lemma lstrip_slashes_repeat (k : nat) (c : N) (s : pystr) :
  c <> 47%N -> lstrip_slashes (repeat 47%N k ++ c :: s) = c :: s.
Proof.
  intros Hc. induction k as [|k IH]; cbn [repeat app lstrip_slashes].
  - by destruct (N.eqb_spec c 47).
  - exact IH.
Qed.

Lemma startswith_app (p s : pystr) : startswith (p ++ s) p = true.
Proof.
  induction p as [|c p IH]; [by destruct s|].
  cbn [app startswith]. by rewrite N.eqb_refl.
Qed.

Lemma rev_repeat {A} (x : A) (k : nat) : rev (repeat x k) = repeat x k.
Proof.
  induction k as [|k IH]; [reflexivity|].
  cbn [repeat rev]. rewrite IH. clear IH.
  induction k as [|k IH]; [reflexivity|]. cbn [repeat app]. by rewrite IH.
Qed.

(** The text between the white space, once its trailing slashes are
    dropped. *)
Lemma strip_slashes_body (ws1 ws2 body r : pystr) (c : N) (k : nat) :
  forallb isspace ws1 = true ->
  forallb isspace ws2 = true ->
  (forall d, head body = Some d -> isspace d = false) ->
  rev body = c :: r ->
  isspace c = false ->
  c <> 47%N ->
  rev (lstrip_slashes (rev (strip (ws1 ++ body ++ repeat 47%N k ++ ws2)))) = body.
Proof.
  intros Hws1 Hws2 Hhead Hrev Hc Hc47.
  assert (Hbody : body = rev (c :: r)) by (rewrite <- Hrev; by rewrite rev_involutive).
  unfold strip. rewrite lstrip_spaces by exact Hws1.
  assert (Hl : lstrip (body ++ repeat 47%N k ++ ws2) = body ++ repeat 47%N k ++ ws2).
  { destruct body as [|d body']; [discriminate Hrev|].
    cbn [app]. apply lstrip_head. by apply Hhead. }
  rewrite Hl, !rev_app_distr, rev_repeat, Hrev, <- app_assoc.
  rewrite lstrip_spaces
    by (rewrite forallb_forall in *; intros x Hx; apply Hws2, in_rev, Hx).
  assert (Hk : lstrip (repeat 47%N k ++ c :: r) = repeat 47%N k ++ c :: r).
  { destruct k; cbn [repeat app]; by apply lstrip_head. }
  rewrite Hk, rev_involutive, lstrip_slashes_repeat by exact Hc47.
  by rewrite Hbody.
Qed.

(** X18. [_normalize_url] maps the usual spellings of a base URL to
    one text: for a host part [h] that neither starts nor ends in white
    space and does not end in a slash, white space around it, any number
    of slashes after it and one suffix [/v1] or [/api] (or none, when
    [h] itself does not end in one) are all dropped, and [h] is what
    is left. *)
Theorem normalize_url_variants (ws1 ws2 h ver : pystr) (k : nat) :
  forallb isspace ws1 = true ->
  forallb isspace ws2 = true ->
  (exists d, head h = Some d /\ isspace d = false) ->
  (exists c, last h = Some c /\ isspace c = false /\ c <> 47%N) ->
  (ver = [] /\ endswith h (utf8 "/v1") = false /\ endswith h (utf8 "/api") = false)
  \/ ver = utf8 "/v1" \/ ver = utf8 "/api" ->
  _normalize_url (ws1 ++ (h ++ ver) ++ repeat 47%N k ++ ws2) = h.
Proof.
  intros Hws1 Hws2 (d & Hd & Hdspace) (c & Hc & Hcspace & Hc47) Hver.
  assert (Hrevh : exists r, rev h = c :: r).
  { destruct (rev h) as [|c' r] eqn:Hr.
    - apply (f_equal (@rev N)) in Hr. rewrite rev_involutive in Hr. subst h. discriminate Hd.
    - exists r. f_equal.
      apply (f_equal (@rev N)) in Hr. rewrite rev_involutive in Hr. subst h.
      cbn [rev] in Hc. rewrite last_snoc in Hc. by injection Hc. }
  destruct Hrevh as [r Hrevh].
  assert (Hhead : forall d', head (h ++ ver) = Some d' -> isspace d' = false).
  { intros d'. destruct h as [|x h']; [discriminate Hd|].
    cbn. intros [= <-]. cbn in Hd. by injection Hd as ->. }
  unfold _normalize_url.
  destruct (ws1 ++ (h ++ ver) ++ repeat 47%N k ++ ws2) as [|x u] eqn:Hu.
  { destruct h; [discriminate Hd|]. by destruct ws1. }
  rewrite <- Hu. clear Hu x u.
  destruct Hver as [(-> & Hv1 & Hapi) | [-> | ->]].
  - rewrite app_nil_r in *.
    rewrite (strip_slashes_body ws1 ws2 h r c k) by done.
    unfold sub_version, without_version. rewrite Hv1, Hapi, Hrevh.
    destruct (N.eqb_spec c 10) as [-> | _]; [discriminate Hcspace | reflexivity].
  - rewrite (strip_slashes_body ws1 ws2 (h ++ utf8 "/v1") (utf8 "v/" ++ rev h) 49%N k);
      try done.
    2:{ rewrite rev_app_distr. reflexivity. }
    unfold sub_version, without_version, endswith.
    rewrite rev_app_distr, startswith_app.
    rewrite length_app, Nat.add_sub, take_app_length. reflexivity.
  - rewrite (strip_slashes_body ws1 ws2 (h ++ utf8 "/api") (utf8 "pa/" ++ rev h) 105%N k);
      try done.
    2:{ rewrite rev_app_distr. reflexivity. }
    unfold sub_version, without_version, endswith.
    rewrite rev_app_distr.
    replace (startswith (rev (utf8 "/api") ++ rev h) (rev (utf8 "/v1"))) with false
      by reflexivity.
    rewrite startswith_app.
    rewrite length_app, Nat.add_sub, take_app_length. reflexivity.
Qed.

Variable _call_ollama _call_cloud_api : LLMCore -> pystr -> pystr -> pystr -> pystr.
Variable offline_json : pystr.

(** Without a base URL, or without a provider, [generate] calls neither
    backend. *)
Lemma generate_offline (env : gmap pystr pystr) (prompt system_prompt mode : pystr) :
  offline_env env ->
  generate _call_ollama _call_cloud_api offline_json (__init__ env)
    prompt system_prompt mode = _fallback_response offline_json mode.
Proof.
  intros Hoff. unfold generate, __init__, getenv.
  cbn [provider base_url].
  destruct Hoff as [Hurl | [Hprov Hlow]].
  - rewrite Hurl. cbn [default _normalize_url]. by rewrite orb_true_r.
  - rewrite Hprov. cbn [default]. rewrite Hlow.
    by rewrite bool_decide_eq_true_2.
Qed.

(** X19. In an environment without [OPENAI_BASE_URL], whatever the
    provider, or without [LLM_PROVIDER], whatever the base URL (lowering
    keeps the default ["offline"]), [generate] makes no call over the
    network: in every mode but
    ["evc"] it returns the fallback text. That text carries the marker
    of a failed call, so the chat form replaces it by its apology and a
    player of the dual conversation by its connection error. *)
Theorem generate_falls_back_offline (env : gmap pystr pystr)
    (prompt system_prompt mode : pystr) (name : pystr) :
  offline_env env ->
  mode <> utf8 "evc" ->
  let reply :=
    generate _call_ollama _call_cloud_api offline_json (__init__ env)
      prompt system_prompt mode in
  reply = _fallback_response_chat /\
  web.answer_of reply = web.apology /\
  (if startswith reply enhanced_dual_ai.error_marker
   then enhanced_dual_ai.connection_error name else reply)
    = enhanced_dual_ai.connection_error name.
Proof.
  intros Hoff Hmode. cbv zeta. rewrite (generate_offline env) by exact Hoff.
  unfold _fallback_response. rewrite bool_decide_eq_false_2 by exact Hmode.
  split; [reflexivity|]. split; reflexivity.
Qed.

(** X20. In such an environment every text that the chat form handles
    is answered by the apology: the log of the session pairs each
    handled text, in order, with it. *)
Theorem offline_session_apologises (env : gmap pystr pystr)
    (cfg : gmap pystr (gmap pystr float)) (events : list web.submission)
    (system_prompt : pystr -> pystr) :
  offline_env env ->
  Forall (fun ev =>
    web.raw_answer ev =
      generate _call_ollama _call_cloud_api offline_json (__init__ env)
        (web.user_input ev) (system_prompt (web.user_input ev)) (utf8 "chat")) events ->
  web.chat_log (web.run_session cfg events) =
    (fun ev => (web.user_input ev, web.apology)) <$> List.filter web.handled events.
Proof.
  intros Hoff Hev. unfold web.run_session.
  assert (Hgen : forall ss0,
    web.processing ss0 = false ->
    web.processing (fold_left (web.script_run cfg) events ss0) = false /\
    web.chat_log (fold_left (web.script_run cfg) events ss0) =
      web.chat_log ss0 ++
      ((fun ev => (web.user_input ev, web.apology)) <$> List.filter web.handled events)).
  { induction Hev as [|ev events Hraw Hev IH]; intros ss0 Hidle; cbn [fold_left List.filter].
    - split; [exact Hidle|]. cbn. by rewrite app_nil_r.
    - destruct (script_run_cases cfg ss0 ev Hidle)
        as [[Hno Hrun]|(Hyes & evc2 & dE & _ & Hrun)].
      + rewrite Hno, Hrun. by apply IH.
      + rewrite Hyes, Hrun.
        destruct (IH {| web.chat_log := web.chat_log ss0 ++
                          [(web.user_input ev, web.answer_of (web.raw_answer ev))];
                        web.E_vals := web.E_vals ss0 ++ [E evc2];
                        web.K_vals := web.K_vals ss0 ++ [K evc2];
                        web.phase_vals := web.phase_vals ss0 ++ [_phase evc2];
                        web.last_dE := dE; web.processing := false |} eq_refl)
          as [Hp Hlog].
        split; [exact Hp|]. rewrite Hlog. cbn [web.chat_log fmap list_fmap].
        rewrite <- app_assoc. cbn [app]. do 3 f_equal.
        rewrite Hraw, (generate_offline env) by exact Hoff. reflexivity. }
  destruct (Hgen web.initial_session eq_refl) as [_ Hlog].
  exact Hlog.
Qed.

End backend_facts.

(** ** Self-play without a backend *)

Section offline_facts.
Import core_llm selfplay_trainer.
Context `{StrLower}.
Variable _call_ollama _call_cloud_api : LLMCore -> pystr -> pystr -> pystr -> pystr.
Variable offline_json : pystr.

(** X21. In such an environment an episode of self-play runs to its
    end all the same: every reply of its history is the fallback text,
    and so is every prompt after the opening line. *)
Theorem offline_episode_repeats_fallback (env : gmap pystr pystr)
    (tone_map : gmap pystr pystr) (cfg : gmap pystr (gmap pystr float))
    (topic : pystr) (max_turns : Z) :
  offline_env env ->
  let backend (t : Z) (prompt tone : pystr) :=
    generate _call_ollama _call_cloud_api offline_json (core_llm.__init__ env)
      prompt tone (utf8 "chat") in
  exists h,
    run_episode backend tone_map cfg topic max_turns = Ok (topic, h) /\
    length h = Z.to_nat max_turns /\
    forall (i : nat) (e : entry), h !! i = Some e ->
      h_reply e = _fallback_response_chat /\
      h_prompt e = match i with O => opening topic | S _ => _fallback_response_chat end.
Proof.
  intros Hoff backend. unfold run_episode, range. cbv zeta.
  set (st0 := {| a := evc_engine.__init__ cfg; b := evc_engine.__init__ cfg;
                 hist := []; who := 0; msg := opening topic |}).
  destruct (loop_spec backend tone_map _ _ (Z.to_nat max_turns) 0 st0
              ltac:(repeat split; by left))
    as (st' & new & Hloop & Hhist & Hlen & Hnew).
  rewrite Hloop. cbn [mbind result_bind bind mret result_ret].
  cbn [hist st0 app] in Hhist. rewrite Hhist.
  exists new. split; [reflexivity|]. split; [exact Hlen|].
  assert (Hreply : forall i e, new !! i = Some e -> h_reply e = _fallback_response_chat).
  { intros i e Hi. destruct (Hnew i e Hi) as [(_ & _ & _ & [tone Hrep] & _) _].
    rewrite Hrep. unfold backend. rewrite (generate_offline _ _ _ env) by exact Hoff.
    reflexivity. }
  intros i e Hi. split; [exact (Hreply i e Hi)|].
  destruct (Hnew i e Hi) as [(_ & _ & Hpr & _) _]. rewrite Hpr.
  destruct i as [|j]; [reflexivity|].
  destruct (new !! j) as [e'|] eqn:Hj.
  - cbn [fmap option_fmap option_map default]. exact (Hreply j e' Hj).
  - apply lookup_ge_None_1 in Hj. apply lookup_lt_Some in Hi. lia.
Qed.

End offline_facts.

Lemma run_episode_history_witness :
  exists h e,
    selfplay_trainer.run_episode (H := ascii_lower) examples.echo ∅
      examples.cfg_narrow (utf8 "EVC") 3 = Ok (utf8 "EVC", h) /\
    h !! 1%nat = Some e /\
    selfplay_trainer.h_speaker e = utf8 "B" /\
    computed_from (H := ascii_lower) (evc_engine.__init__ examples.cfg_narrow) e.
Proof.
  destruct (run_episode_history (H := ascii_lower) examples.echo ∅
              examples.cfg_narrow (utf8 "EVC") 3) as (h & Hrun & Hlen & Hall).
  destruct (lookup_lt_is_Some_2 h 1) as [e He]; [rewrite Hlen; cbn; lia|].
  exists h, e. split; [exact Hrun|]. split; [exact He|].
  destruct (Hall 1%nat e He) as (_ & Hsp & _ & _ & _ & Hc).
  split; [exact Hsp|]. apply Hc. lia.
Defined.

Lemma run_episode_values_in_bounds_witness :
  let evc0 := evc_engine.__init__ examples.cfg_narrow in
  (clamp_low evc0 <= clamp_high evc0)%f = true /\
  exists h,
    selfplay_trainer.run_episode (H := ascii_lower) examples.echo ∅
      examples.cfg_narrow (utf8 "EVC") 3 = Ok (utf8 "EVC", h) /\
    Forall (fun e => between (clamp_low evc0) (clamp_high evc0)
                       (info_E (selfplay_trainer.h_evc e))) h.
Proof.
  split; [vm_compute; reflexivity|].
  destruct (run_episode_values_in_bounds (H := ascii_lower) examples.echo ∅
              examples.cfg_narrow (utf8 "EVC") 3) as (h & Hrun & _ & HE).
  exists h. split; [exact Hrun|]. apply HE. vm_compute. reflexivity.
Defined.

Lemma normalize_url_variants_witness :
  core_llm._normalize_url
    (utf8 " " ++ (utf8 "http://localhost:11434" ++ utf8 "/v1") ++ repeat 47%N 2 ++ [10%N])
  = utf8 "http://localhost:11434".
Proof.
  apply normalize_url_variants.
  - reflexivity.
  - reflexivity.
  - eexists. split; reflexivity.
  - eexists. split; [reflexivity|]. split; [reflexivity|]. discriminate.
  - right. left. reflexivity.
Defined.

(** The empty environment is offline. *)
Lemma offline_env_empty : offline_env (H := ascii_lower) ∅.
Proof. left. reflexivity. Qed.

Lemma generate_falls_back_offline_witness :
  offline_env (H := ascii_lower) ∅ /\
  utf8 "chat" <> utf8 "evc" /\
  core_llm.generate (fun _ _ _ _ => []) (fun _ _ _ _ => []) []
    (core_llm.__init__ (H := ascii_lower) ∅) examples.hello [] (utf8 "chat")
  = core_llm._fallback_response_chat.
Proof.
  assert (Hmode : utf8 "chat" <> utf8 "evc")
    by (intros Heq; vm_compute in Heq; discriminate Heq).
  split; [exact offline_env_empty|]. split; [exact Hmode|].
  destruct (generate_falls_back_offline (H := ascii_lower)
              (fun _ _ _ _ => []) (fun _ _ _ _ => []) [] ∅ examples.hello []
              (utf8 "chat") [] offline_env_empty Hmode) as (Hreply & _ & _).
  exact Hreply.
Defined.

Lemma offline_session_apologises_witness :
  let events :=
    [ {| web.submit := true; web.user_input := examples.hello;
         web.raw_answer := core_llm._fallback_response_chat |};
      {| web.submit := false; web.user_input := examples.hello;
         web.raw_answer := core_llm._fallback_response_chat |} ] in
  web.chat_log (web.run_session (H := ascii_lower) examples.cfg_narrow events)
  = (fun ev => (web.user_input ev, web.apology))
      <$> List.filter web.handled events.
Proof.
  intros events.
  apply (offline_session_apologises (H := ascii_lower)
           (fun _ _ _ _ => []) (fun _ _ _ _ => []) [] ∅ examples.cfg_narrow
           events (fun _ => []) offline_env_empty).
  subst events. repeat (constructor; [vm_compute; reflexivity|]). constructor.
Defined.

Lemma offline_episode_repeats_fallback_witness :
  exists h e,
    selfplay_trainer.run_episode (H := ascii_lower)
      (fun _ prompt tone =>
         core_llm.generate (fun _ _ _ _ => []) (fun _ _ _ _ => []) []
           (core_llm.__init__ (H := ascii_lower) ∅) prompt tone (utf8 "chat"))
      ∅ examples.cfg_narrow (utf8 "EVC") 2 = Ok (utf8 "EVC", h) /\
    h !! 1%nat = Some e /\
    selfplay_trainer.h_prompt e = core_llm._fallback_response_chat /\
    selfplay_trainer.h_reply e = core_llm._fallback_response_chat.
Proof.
  destruct (offline_episode_repeats_fallback (H := ascii_lower)
              (fun _ _ _ _ => []) (fun _ _ _ _ => []) [] ∅ ∅
              examples.cfg_narrow (utf8 "EVC") 2 offline_env_empty)
    as (h & Hrun & Hlen & Hall).
  destruct (lookup_lt_is_Some_2 h 1) as [e He]; [rewrite Hlen; cbn; lia|].
  exists h, e. split; [exact Hrun|]. split; [exact He|].
  destruct (Hall 1%nat e He) as [Hrep Hpr]. split; [exact Hpr|exact Hrep].
Defined.
